(** * Premint API client (packages/1155-contracts/package/premint-api.ts)

    A shallow embedding of the TypeScript module and the properties of
    its registry, signing and execution flows.

    Conventions of the embedding.
    - JavaScript values are the inductive [jsval]; objects are finite maps
      from property names to values, so that object spread is map union
      and an object literal is a sequence of inserts.
    - [number]s that occur in this module (chain ids, uids, HTTP status
      codes, basis points) are integers and are modelled by [Z]; NaN,
      fractions and exponent notation are not represented.  [bigint] is [Z].
    - Strings are ASCII: [toLowerCase] and white-space trimming act on the
      ASCII range only.
    - Every suspending call (fetch, wallet, chain interface) is an oracle
      that may depend on the history of earlier calls; each call is
      appended to that history, the [trace]. *)

From Stdlib Require Import ZArith NArith Ascii String List Lia.
From stdpp Require Import base option list gmap strings pretty.

Local Open Scope string_scope.
Local Open Scope Z_scope.

(** ** JavaScript values *)

#[warnings="-register-all"]
Inductive jsval : Type :=
| JUndefined
| JNull
| JBool (b : bool)
| JNumber (n : Z)
| JBigInt (z : Z)
| JString (s : string)
| JArray (l : list jsval)
| JObject (o : gmap string jsval).

(** Exceptions: [Error] is [new Error(message)]; [TypeError] and
    [SyntaxError] are raised by the runtime; [Rejected] is a failure
    reported by an external collaborator (network, wallet, chain). *)
Inductive exn : Type :=
| Error (message : string)
| TypeError
| SyntaxError
| Rejected (reason : string).

Inductive result (A : Type) : Type :=
| Ok (a : A)
| Throw (e : exn).
Arguments Ok {A} a.
Arguments Throw {A} e.

#[global] Instance result_ret : MRet result := fun A a => Ok a.
#[global] Instance result_bind : MBind result := fun A B f r =>
  match r with
  | Ok a => f a
  | Throw e => Throw e
  end.
#[global] Instance result_fmap : FMap result := fun A B f r =>
  match r with
  | Ok a => Ok (f a)
  | Throw e => Throw e
  end.

(** ToBoolean. *)
Definition truthy (v : jsval) : bool :=
  match v with
  | JUndefined | JNull => false
  | JBool b => b
  | JNumber n => negb (n =? 0)
  | JBigInt z => negb (z =? 0)
  | JString s => negb (String.eqb s "")
  | JArray _ | JObject _ => true
  end.

(** *** Decimal and prefixed integer literals: [BigInt(string)] *)

Definition digit_of (c : ascii) : option N :=
  let n := N_of_ascii c in
  if ((48 <=? n) && (n <=? 57))%N then Some (n - 48)%N
  else if ((97 <=? n) && (n <=? 102))%N then Some (n - 87)%N
  else if ((65 <=? n) && (n <=? 70))%N then Some (n - 55)%N
  else None.

Fixpoint parse_digits (radix : N) (s : string) (acc : N) : option N :=
  match s with
  | EmptyString => Some acc
  | String c s' =>
      match digit_of c with
      | Some d =>
          if (d <? radix)%N then parse_digits radix s' (acc * radix + d)%N
          else None
      | None => None
      end
  end.

(** One or more digits of the radix. *)
Definition parse_radix (radix : N) (s : string) : option Z :=
  match s with
  | EmptyString => None
  | _ => Z.of_N <$> parse_digits radix s 0%N
  end.

(** TAB, LF, VT, FF, CR and SP. *)
Definition is_white_space (c : ascii) : bool :=
  let n := N_of_ascii c in
  (((9 <=? n) && (n <=? 13)) || (n =? 32))%N.

Fixpoint trim_start (s : string) : string :=
  match s with
  | EmptyString => EmptyString
  | String c s' => if is_white_space c then trim_start s' else s
  end.

Fixpoint trim_end (s : string) : string :=
  match s with
  | EmptyString => EmptyString
  | String c s' =>
      match trim_end s' with
      | EmptyString => if is_white_space c then EmptyString else String c EmptyString
      | r => String c r
      end
  end.

Definition trim (s : string) : string := trim_end (trim_start s).

Definition ascii_in (c : ascii) (a b : ascii) : bool :=
  Ascii.eqb c a || Ascii.eqb c b.

(** StrIntegerLiteral: a signed decimal integer, or an unsigned binary,
    octal or hexadecimal literal. *)
Definition StrIntegerLiteral (t : string) : option Z :=
  match t with
  | EmptyString => None
  | String c r =>
      if Ascii.eqb c "-" then Z.opp <$> parse_radix 10 r
      else if Ascii.eqb c "+" then parse_radix 10 r
      else if Ascii.eqb c "0" then
        match r with
        | String p r' =>
            if ascii_in p "x" "X" then parse_radix 16 r'
            else if ascii_in p "o" "O" then parse_radix 8 r'
            else if ascii_in p "b" "B" then parse_radix 2 r'
            else parse_radix 10 t
        | EmptyString => parse_radix 10 t
        end
      else parse_radix 10 t
  end.

(** StringToBigInt: the empty (or all white space) string is [0n]. *)
Definition StringToBigInt (s : string) : option Z :=
  match trim s with
  | EmptyString => Some 0
  | t => StrIntegerLiteral t
  end.

(** *** Conversions to string *)

(** [Array.prototype.join(",")] over already converted elements. *)
Fixpoint join_comma (l : list string) : string :=
  match l with
  | [] => ""
  | [s] => s
  | s :: l' => s +:+ "," +:+ join_comma l'
  end.

(** ToString, as applied by template literals.  A plain object prints as
    [[object Object]]; an object that shadows [toString] with a data
    property has no callable conversion. *)
Fixpoint ToString (v : jsval) : result string :=
  match v with
  | JUndefined => Ok "undefined"
  | JNull => Ok "null"
  | JBool b => Ok (if b then "true" else "false")
  | JNumber n => Ok (pretty n)
  | JBigInt z => Ok (pretty z)
  | JString s => Ok s
  | JArray l =>
      join_comma <$>
        (fix elements (l : list jsval) : result (list string) :=
           match l with
           | [] => Ok []
           | x :: l' =>
               s ← match x with
                   | JUndefined | JNull => Ok ""
                   | _ => ToString x
                   end;
               r ← elements l';
               Ok (s :: r)
           end) l
  | JObject o =>
      match o !! "toString" with
      | Some _ => Throw TypeError
      | None => Ok "[object Object]"
      end
  end.

(** The method call [v.toString()]. *)
Definition method_toString (v : jsval) : result string :=
  match v with
  | JUndefined | JNull => Throw TypeError
  | _ => ToString v
  end.

(** The method call [v.toLowerCase()], defined on strings only. *)
Definition lower_ascii (c : ascii) : ascii :=
  let n := N_of_ascii c in
  if ((65 <=? n) && (n <=? 90))%N then ascii_of_N (n + 32) else c.

Fixpoint toLowerCase (s : string) : string :=
  match s with
  | EmptyString => EmptyString
  | String c s' => String (lower_ascii c) (toLowerCase s')
  end.

Definition method_toLowerCase (v : jsval) : result string :=
  match v with
  | JString s => Ok (toLowerCase s)
  | _ => Throw TypeError
  end.

(** The function call [BigInt(v)]. *)
Definition BigInt (v : jsval) : result Z :=
  match v with
  | JUndefined | JNull => Throw TypeError
  | JBool b => Ok (if b then 1 else 0)
  | JNumber n => Ok n
  | JBigInt z => Ok z
  | JString s =>
      match StringToBigInt s with
      | Some z => Ok z
      | None => Throw SyntaxError
      end
  | JArray _ | JObject _ =>
      s ← ToString v;
      match StringToBigInt s with
      | Some z => Ok z
      | None => Throw SyntaxError
      end
  end.

(** *** Properties and spread *)

(** Own enumerable properties, as copied by [{...v}]: nothing for
    [undefined], [null], booleans and numbers; the indices of an array or
    of a string. *)
Definition index_props (l : list jsval) : gmap string jsval :=
  list_to_map (imap (fun i x => (pretty i, x)) l).

Fixpoint chars (s : string) : list jsval :=
  match s with
  | EmptyString => []
  | String c s' => JString (String c EmptyString) :: chars s'
  end.

Definition own_props (v : jsval) : gmap string jsval :=
  match v with
  | JObject o => o
  | JArray l => index_props l
  | JString s => index_props (chars s)
  | _ => ∅
  end.

(** Member access [v[k]] or [v.k], for the property names this module
    reads (none of them is inherited from a prototype). *)
Definition get_prop (v : jsval) (k : string) : result jsval :=
  match v with
  | JUndefined | JNull => Throw TypeError
  | _ => Ok (default JUndefined (own_props v !! k))
  end.

(** Array destructuring [const [x0, x1, ...] = v]: the values the
    iterator of [v] yields; position [i] is [undefined] past the end. *)
Definition iterate (v : jsval) : result (list jsval) :=
  match v with
  | JArray l => Ok l
  | JString s => Ok (chars s)
  | _ => Throw TypeError
  end.

Definition element (l : list jsval) (i : nat) : jsval :=
  default JUndefined (l !! i).

(** ** The outside world *)

Inductive http_method : Type := GET | POST.

(** The arguments of one [fetch(url, init)] call. *)
Record request : Type := {
  req_url : string;
  req_method : http_method;
  req_headers : list (string * string);
  req_body : jsval
}.

(** What this module reads of a fetch response: [response.status] and the
    outcome of [response.json()]. *)
Record response : Type := {
  status : Z;
  json : result jsval
}.

(** viem's [Chain]; only [chain.id] is read. *)
Record Chain : Type := { Chain_id : Z }.

(** The parameter object of [readContract]. *)
Record read_request : Type := {
  rd_address : jsval;
  rd_abi : jsval;
  rd_functionName : string;
  rd_args : list jsval
}.

(** The parameter object of [simulateContract] and [writeContract]. *)
Record tx_request : Type := {
  tx_abi : jsval;
  tx_account : jsval;
  tx_value : Z;
  tx_chain : option Chain;
  tx_functionName : string;
  tx_address : jsval;
  tx_args : list jsval
}.

Inductive event : Type :=
| EFetch (r : request)
| EReadContract (c : read_request)
| ESimulateContract (c : tx_request)
| EWriteContract (c : tx_request)
| ESignTypedData (typedData : jsval).

Abbreviation trace := (list event).

(** viem's [PublicClient]: [simulateContract] resolves to the [request]
    member of its result. *)
Record PublicClient : Type := {
  readContract : trace -> read_request -> result jsval;
  simulateContract : trace -> tx_request -> result tx_request
}.

(** viem's [WalletClient]. *)
Record WalletClient : Type := {
  wallet_account : jsval;
  signTypedData : trace -> jsval -> result jsval;
  writeContract : trace -> tx_request -> result jsval
}.

(** What the module imports and does not define: the global [fetch] and
    [JSON.stringify], viem's [createPublicClient] with the [http()]
    transport, [preminterTypedDataDefinition] of [./preminter] (applied to
    [verifyingContract], [premintConfig] and [chainId]) and the generated
    ABI and per-chain address tables of [./wagmiGenerated]. *)
Record Env : Type := {
  fetch : trace -> request -> result response;
  JSON_stringify : jsval -> result jsval;
  createPublicClient : Chain -> PublicClient;
  preminterTypedDataDefinition : jsval -> jsval -> Z -> result jsval;
  zoraCreator1155PremintExecutorImplABI : jsval;
  zoraCreator1155PremintExecutorImplAddress : gmap Z string;
  zoraCreatorFixedPriceSaleStrategyAddress : gmap Z string
}.

(** ** Suspending computations: an error monad over the call history *)

Definition IO (A : Type) : Type := trace -> result A * trace.

#[global] Instance IO_ret : MRet IO := fun A a t => (Ok a, t).
#[global] Instance IO_bind : MBind IO := fun A B f m t =>
  match m t with
  | (Ok a, t') => f a t'
  | (Throw e, t') => (Throw e, t')
  end.

Definition lift {A} (r : result A) : IO A := fun t => (r, t).

(** One external call: the collaborator answers from the history so far,
    and the call is recorded. *)
Definition perform {A} (e : event) (answer : trace -> result A) : IO A :=
  fun t => (answer t, (t ++ [e])%list).

(** ** The module *)

Record NetworkConfig : Type := {
  chainId : Z;
  zoraPathChainName : string;
  zoraBackendChainName : string;
  isTestnet : bool
}.

(** [const enum BackendChainNames]: the members are their string values. *)
Definition ZORA_MAINNET : string := "ZORA-MAINNET".
Definition ZORA_TESTNET : string := "ZORA-TESTNET".

Definition ZORA_API_BASE : string := "https://api.zora.co/premint/".

(** [zora], [zoraTestnet] and [foundry] of viem/chains. *)
Definition zora : Chain := {| Chain_id := 7777777 |}.
Definition zoraTestnet : Chain := {| Chain_id := 999 |}.
Definition foundry : Chain := {| Chain_id := 31337 |}.

(** The object literal, its three computed keys in source order. *)
Definition networkConfigByChain : gmap Z NetworkConfig :=
  <[Chain_id foundry :=
      {| chainId := Chain_id foundry;
         isTestnet := true;
         zoraPathChainName := "zora";
         zoraBackendChainName := ZORA_TESTNET |}]>
  (<[Chain_id zoraTestnet :=
      {| chainId := Chain_id zora;
         isTestnet := true;
         zoraPathChainName := "zora";
         zoraBackendChainName := ZORA_TESTNET |}]>
  (<[Chain_id zora :=
      {| chainId := Chain_id zora;
         isTestnet := false;
         zoraPathChainName := "zora";
         zoraBackendChainName := ZORA_MAINNET |}]> ∅)).

Definition OPEN_EDITION_MINT_SIZE : string := "18446744073709551615".

(** The object literal [DefaultMintArguments]; its two [BigInt(...)]
    calls run when the module is loaded. *)
Definition DefaultMintArguments : result (gmap string jsval) :=
  maxSupply ← BigInt (JString OPEN_EDITION_MINT_SIZE);
  mintDuration ← BigInt (JNumber (60 * 60 * 24 * 7));
  Ok (<["royaltyBPS" := JNumber 1000]>
     (<["royaltyMintSchedule" := JNumber 0]>
     (<["mintStart" := JBigInt 0]>
     (<["mintDuration" := JBigInt mintDuration]>
     (<["pricePerToken" := JBigInt 0]>
     (<["maxTokensPerAddress" := JBigInt 0]>
     (<["maxSupply" := JBigInt maxSupply]> ∅))))))).

(** [convertPremint]: both spreads, then the five [BigInt(...)] members
    in source order. *)
Definition convertPremint (premint : jsval) : result jsval :=
  tokenConfig ← get_prop premint "tokenConfig";
  maxSupply ← get_prop tokenConfig "maxSupply" ≫= BigInt;
  pricePerToken ← get_prop tokenConfig "pricePerToken" ≫= BigInt;
  mintStart ← get_prop tokenConfig "mintStart" ≫= BigInt;
  mintDuration ← get_prop tokenConfig "mintDuration" ≫= BigInt;
  maxTokensPerAddress ← get_prop tokenConfig "maxTokensPerAddress" ≫= BigInt;
  Ok (JObject
    (<["tokenConfig" := JObject
        (<["maxTokensPerAddress" := JBigInt maxTokensPerAddress]>
        (<["mintDuration" := JBigInt mintDuration]>
        (<["mintStart" := JBigInt mintStart]>
        (<["pricePerToken" := JBigInt pricePerToken]>
        (<["maxSupply" := JBigInt maxSupply]>
        (own_props tokenConfig))))))]>
     (own_props premint))).

(** [encodePremintForAPI]: the parameter is destructured into its
    [tokenConfig] member and the rest. *)
Definition encodePremintForAPI (config : jsval) : result jsval :=
  tokenConfig ← get_prop config "tokenConfig";
  let premint := delete "tokenConfig" (own_props config) in
  maxSupply ← get_prop tokenConfig "maxSupply" ≫= method_toString;
  pricePerToken ← get_prop tokenConfig "pricePerToken" ≫= method_toString;
  mintStart ← get_prop tokenConfig "mintStart" ≫= method_toString;
  mintDuration ← get_prop tokenConfig "mintDuration" ≫= method_toString;
  maxTokensPerAddress ←
    get_prop tokenConfig "maxTokensPerAddress" ≫= method_toString;
  Ok (JObject
    (<["tokenConfig" := JObject
        (<["maxTokensPerAddress" := JString maxTokensPerAddress]>
        (<["mintDuration" := JString mintDuration]>
        (<["mintStart" := JString mintStart]>
        (<["pricePerToken" := JString pricePerToken]>
        (<["maxSupply" := JString maxSupply]>
        (own_props tokenConfig))))))]>
     premint)).

Definition ZORA_PREMINT_API_BASE : string := "https://api.zora.co/premint/".

(** *** class PreminterAPI *)

Record PreminterAPI : Type := {
  network : NetworkConfig;
  chain : Chain;
  rewardPerToken : Z
}.

Definition PreminterAPI_constructor (c : Chain) : result PreminterAPI :=
  reward ← BigInt (JString "777000000000000");
  match networkConfigByChain !! Chain_id c with
  | None => Throw (Error ("Not configured for chain " +:+ pretty (Chain_id c)))
  | Some networkConfig =>
      Ok {| network := networkConfig; chain := c; rewardPerToken := reward |}
  end.

(** Indexing a generated address table: [undefined] where the table has
    no entry. *)
Definition address_at (table : gmap Z string) (key : Z) : jsval :=
  match table !! key with
  | Some a => JString a
  | None => JUndefined
  end.

Definition getExecutorAddress (E : Env) (this : PreminterAPI) : jsval :=
  address_at (zoraCreator1155PremintExecutorImplAddress E) 999.

Definition getFixedPriceMinterAddress (E : Env) (this : PreminterAPI) : jsval :=
  address_at (zoraCreatorFixedPriceSaleStrategyAddress E) 999.

Definition get_request (path : string) : request :=
  {| req_url := path; req_method := GET; req_headers := [];
     req_body := JUndefined |}.

Definition get (E : Env) (path : string) : IO jsval :=
  let rq := get_request path in
  response ← perform (EFetch rq) (fun t => fetch E t rq);
  lift (json response).

Definition post_request (path : string) (body : jsval) : request :=
  {| req_url := path; req_method := POST;
     req_headers := [("content-type", "application/json");
                     ("accept", "application/json")];
     req_body := body |}.

Definition post (E : Env) (path : string) (data : jsval) : IO jsval :=
  body ← lift (JSON_stringify E data);
  let rq := post_request path body in
  response ← perform (EFetch rq) (fun t => fetch E t rq);
  if negb (status response =? 200)
  then lift (Throw (Error ("Bad response: " +:+ pretty (status response))))
  else lift (json response).

(** *** createPremint *)

(** [executionSettings?: { deleted?: boolean; uid?: number }]. *)
Record ExecutionSettings : Type := {
  deleted : option bool;
  uid : option Z
}.

Record CreatePremintResult : Type := {
  url : string;
  result_uid : jsval;
  newContractAddress : jsval;
  premint : jsval
}.

Definition getContractAddress_request
    (E : Env) (this : PreminterAPI) (collection : jsval) : read_request :=
  {| rd_address := getExecutorAddress E this;
     rd_abi := zoraCreator1155PremintExecutorImplABI E;
     rd_functionName := "getContractAddress";
     rd_args := [collection] |}.

Definition isValidSignature_request
    (E : Env) (this : PreminterAPI) (collection premintConfig signature : jsval)
    : read_request :=
  {| rd_abi := zoraCreator1155PremintExecutorImplABI E;
     rd_address := getExecutorAddress E this;
     rd_functionName := "isValidSignature";
     rd_args := [collection; premintConfig; signature] |}.

(** Lines 208-213: defaults, then the two context-derived members, then
    the caller's [mint]. *)
Definition createPremint_tokenConfig
    (E : Env) (this : PreminterAPI) (account mint : jsval)
    : result (gmap string jsval) :=
  defaults ← DefaultMintArguments;
  Ok (own_props mint ∪
      <["royaltyRecipient" := account]>
        (<["fixedPriceMinter" := getFixedPriceMinterAddress E this]> defaults)).

(** [executionSettings?.uid]. *)
Definition explicit_uid (executionSettings : option ExecutionSettings) : jsval :=
  match executionSettings with
  | Some es => match uid es with Some u => JNumber u | None => JUndefined end
  | None => JUndefined
  end.

Definition next_uid_path (this : PreminterAPI) (address : string) : string :=
  ZORA_API_BASE +:+ "signature/" +:+ zoraBackendChainName (network this)
    +:+ "/" +:+ address +:+ "/next_uid".

(** Lines 215-227. *)
Definition createPremint_uid
    (E : Env) (this : PreminterAPI)
    (executionSettings : option ExecutionSettings) (newContractAddress : jsval)
    : IO jsval :=
  let uid := explicit_uid executionSettings in
  uid ← (if negb (truthy uid) then
           address ← lift (method_toLowerCase newContractAddress);
           uidResponse ← get E (next_uid_path this address);
           lift (get_prop uidResponse "next_uid")
         else mret uid);
  if negb (truthy uid) then lift (Throw (Error "UID is missing but required"))
  else mret uid.

(** [executionSettings?.deleted || false]. *)
Definition deleted_flag (executionSettings : option ExecutionSettings) : bool :=
  match executionSettings with
  | Some es => match deleted es with Some true => true | _ => false end
  | None => false
  end.

Definition premintConfig_of
    (tokenConfig : gmap string jsval) (uid : jsval) (deleted : bool) : jsval :=
  JObject (<["deleted" := JBool deleted]>
          (<["version" := JNumber 1]>
          (<["uid" := uid]>
          (<["tokenConfig" := JObject tokenConfig]> ∅)))).

(** Lines 247-257. *)
Definition createPremint_check
    (E : Env) (this : PreminterAPI) (publicClient : PublicClient)
    (checkSignature : bool) (collection premintConfig signature : jsval)
    : IO unit :=
  if checkSignature then
    let rq := isValidSignature_request E this collection premintConfig signature in
    outcome ← perform (EReadContract rq) (fun t => readContract publicClient t rq);
    values ← lift (iterate outcome);
    let isValidSignature := element values 0 in
    if negb (truthy isValidSignature) then lift (Throw (Error "Invalid signature"))
    else mret tt
  else mret tt.

Definition collect_url
    (this : PreminterAPI) (newContractAddress uid : string) : string :=
  "https://" +:+ (if isTestnet (network this) then "testnet." else "")
    +:+ "zora.co/collect:" +:+ zoraPathChainName (network this)
    +:+ ":" +:+ newContractAddress +:+ "/premint-" +:+ uid.

Definition createPremint
    (E : Env) (this : PreminterAPI)
    (account collection mint : jsval)
    (publicClient : option PublicClient) (walletClient : WalletClient)
    (executionSettings : option ExecutionSettings)
    (checkSignature : option bool)
    : IO CreatePremintResult :=
  let checkSignature := default true checkSignature in
  let publicClient :=
    match publicClient with
    | Some client => client
    | None => createPublicClient E (chain this)
    end in
  let rq := getContractAddress_request E this collection in
  newContractAddress ←
    perform (EReadContract rq) (fun t => readContract publicClient t rq);
  tokenConfig ← lift (createPremint_tokenConfig E this account mint);
  uid ← createPremint_uid E this executionSettings newContractAddress;
  let deleted := deleted_flag executionSettings in
  let premintConfig := premintConfig_of tokenConfig uid deleted in
  typedData ←
    lift (preminterTypedDataDefinition E newContractAddress premintConfig
            (Chain_id (chain this)));
  let signing := JObject (own_props typedData ∪ {["account" := account]}) in
  signature ←
    perform (ESignTypedData signing) (fun t => signTypedData walletClient t signing);
  _ ← createPremint_check E this publicClient checkSignature
        collection premintConfig signature;
  encoded ← lift (encodePremintForAPI premintConfig);
  let apiData :=
    JObject (<["signature" := signature]>
            (<["chain_name" := JString (zoraBackendChainName (network this))]>
            (<["premint" := encoded]>
            (<["collection" := collection]> ∅)))) in
  premint ← post E (ZORA_API_BASE +:+ "signature") apiData;
  address_text ← lift (ToString newContractAddress);
  uid_text ← lift (ToString uid);
  mret {| url := collect_url this address_text uid_text;
          result_uid := uid;
          newContractAddress := newContractAddress;
          premint := premint |}.

(** *** getPremintData, isValidSignature, executePremintWithWallet *)

Definition premint_record_path
    (this : PreminterAPI) (address : string) (uid : Z) : string :=
  ZORA_PREMINT_API_BASE +:+ "signature/" +:+ zoraBackendChainName (network this)
    +:+ "/" +:+ address +:+ "/" +:+ pretty uid.

Definition getPremintData
    (E : Env) (this : PreminterAPI) (address : string) (uid : Z) : IO jsval :=
  get E (premint_record_path this address uid).

Record SignatureCheck : Type := {
  isValid : jsval;
  contractAddress : jsval;
  recoveredSigner : jsval
}.

Definition isValidSignature
    (E : Env) (this : PreminterAPI) (data : jsval) (publicClient : PublicClient)
    : IO SignatureCheck :=
  collection ← lift (get_prop data "collection");
  converted ← lift (get_prop data "premint" ≫= convertPremint);
  signature ← lift (get_prop data "signature");
  let rq := isValidSignature_request E this collection converted signature in
  outcome ← perform (EReadContract rq) (fun t => readContract publicClient t rq);
  values ← lift (iterate outcome);
  mret {| isValid := element values 0;
          contractAddress := element values 1;
          recoveredSigner := element values 2 |}.

(** The call object of [premint]; [simulateContract] is given no [chain]
    member, the direct [writeContract] is. *)
Definition premint_call
    (E : Env) (account : jsval) (value : Z) (chain : option Chain)
    (targetAddress : jsval) (args : list jsval) : tx_request :=
  {| tx_abi := zoraCreator1155PremintExecutorImplABI E;
     tx_account := account;
     tx_value := value;
     tx_chain := chain;
     tx_functionName := "premint";
     tx_address := targetAddress;
     tx_args := args |}.

Definition executePremintWithWallet
    (E : Env) (this : PreminterAPI)
    (data account : jsval) (walletClient : WalletClient)
    (quantityToMint : Z) (mintComment : string)
    (publicClient : option PublicClient) : IO jsval :=
  let targetAddress := getExecutorAddress E this in
  collection ← lift (get_prop data "collection");
  converted ← lift (get_prop data "premint" ≫= convertPremint);
  signature ← lift (get_prop data "signature");
  let args := [collection; converted; signature;
               JBigInt quantityToMint; JString mintComment] in
  let account :=
    if negb (truthy account) then wallet_account walletClient else account in
  let value := quantityToMint * rewardPerToken this in
  match publicClient with
  | Some client =>
      let simulated := premint_call E account value None targetAddress args in
      request ←
        perform (ESimulateContract simulated)
                (fun t => simulateContract client t simulated);
      perform (EWriteContract request) (fun t => writeContract walletClient t request)
  | None =>
      let call :=
        premint_call E account value (Some (chain this)) targetAddress args in
      perform (EWriteContract call) (fun t => writeContract walletClient t call)
  end.

(** ** Vocabulary of the properties *)

(** The members of [tokenConfig] whose declared type is [bigint]. *)
Definition bigint_fields : list string :=
  ["maxSupply"; "pricePerToken"; "mintStart"; "mintDuration";
   "maxTokensPerAddress"].

(** The members of [tokenConfig] that hold integers, [bigint] or
    [number]. *)
Definition integer_fields : list string :=
  ["maxSupply"; "maxTokensPerAddress"; "pricePerToken"; "mintStart";
   "mintDuration"; "royaltyMintSchedule"; "royaltyBPS"].

(** A configuration object whose token configuration holds a [bigint] in
    each of the five [bigint] members, as the type [PremintConfig]
    requires. *)
Definition bigint_typed (tokenConfig : gmap string jsval) : Prop :=
  ∀ k, k ∈ bigint_fields -> ∃ z, tokenConfig !! k = Some (JBigInt z).

(** [encoded] is [tokenConfig] with the members listed in [fields] turned
    into the decimal text of the integer they hold, and every other member
    unchanged. *)
Definition decimal_strings_at
    (fields : list string) (tokenConfig encoded : gmap string jsval) : Prop :=
  (∀ k v, k ∈ fields -> tokenConfig !! k = Some v ->
     ∃ z, (v = JBigInt z ∨ v = JNumber z)
          ∧ encoded !! k = Some (JString (pretty z)))
  ∧ (∀ k, k ∉ fields -> encoded !! k = tokenConfig !! k).

(** The table of defaults as the specification lists it. *)
Definition default_table : gmap string jsval :=
  <["maxSupply" := JBigInt 18446744073709551615]>
  (<["maxTokensPerAddress" := JBigInt 0]>
  (<["pricePerToken" := JBigInt 0]>
  (<["mintDuration" := JBigInt 604800]>
  (<["mintStart" := JBigInt 0]>
  (<["royaltyMintSchedule" := JNumber 0]>
  (<["royaltyBPS" := JNumber 1000]> ∅)))))).

(** Per-chain resolution as the specification words it: both getters
    answer with the table entry of the chain the instance was built
    for. *)
Definition resolved_per_chain (E : Env) (this : PreminterAPI) : Prop :=
  getExecutorAddress E this
    = address_at (zoraCreator1155PremintExecutorImplAddress E)
        (Chain_id (chain this))
  ∧ getFixedPriceMinterAddress E this
    = address_at (zoraCreatorFixedPriceSaleStrategyAddress E)
        (Chain_id (chain this)).

Definition is_upper (c : ascii) : bool :=
  ((65 <=? N_of_ascii c) && (N_of_ascii c <=? 90))%N.

Fixpoint has_upper (s : string) : bool :=
  match s with
  | EmptyString => false
  | String c s' => is_upper c || has_upper s'
  end.

(** No explicit uid: [executionSettings] or its [uid] is absent, or the
    uid is [0]. *)
Definition uid_not_provided (executionSettings : option ExecutionSettings) : Prop :=
  explicit_uid executionSettings = JUndefined
  ∨ explicit_uid executionSettings = JNumber 0.

(** A simulation hands back a request that carries the value and the
    function of the call it was given, as viem's does. *)
Definition simulation_keeps_value (client : PublicClient) : Prop :=
  ∀ h c c', simulateContract client h c = Ok c' ->
    tx_value c' = tx_value c ∧ tx_functionName c' = tx_functionName c.

(** The verification call of [client] reports an invalid signature,
    whatever it is asked. *)
Definition reports_invalid (client : PublicClient) : Prop :=
  ∀ h c, rd_functionName c = "isValidSignature" ->
    ∃ outcome values,
      readContract client h c = Ok outcome
      ∧ iterate outcome = Ok values
      ∧ truthy (element values 0) = false.

Definition is_registry_write (e : event) : Prop :=
  ∃ r, e = EFetch r ∧ req_method r = POST.

Definition is_verification (e : event) : Prop :=
  ∃ c, e = EReadContract c ∧ rd_functionName c = "isValidSignature".

(** The values attached to the state-mutating calls of a history. *)
Definition written_values (t : trace) : list Z :=
  omap (fun e => match e with
                 | EWriteContract c => Some (tx_value c)
                 | _ => None
                 end) t.

(** The registry requests of a history: method and URL. *)
Definition registry_requests (t : trace) : list (http_method * string) :=
  omap (fun e => match e with
                 | EFetch r => Some (req_method r, req_url r)
                 | _ => None
                 end) t.

(** Facts about decimal text. *)
Definition is_decimal (c : ascii) : bool :=
  ((48 <=? N_of_ascii c) && (N_of_ascii c <=? 57))%N.

Fixpoint all_decimal (s : string) : bool :=
  match s with
  | EmptyString => true
  | String c s' => is_decimal c && all_decimal s'
  end.

Fixpoint no_white_space (s : string) : bool :=
  match s with
  | EmptyString => true
  | String c s' => negb (is_white_space c) && no_white_space s'
  end.

(** The decimal text of a positive number. *)
Definition digits (p : positive) : string := pretty_N_go (Npos p) "".

(** ** Fixtures *)

Definition fixture_address : string := "0xAbCdEf0123456789aBcDeF0123456789AbCdEf01".

Definition fixture_collection : jsval :=
  JObject (<["contractAdmin" := JString "0xA"]>
          (<["contractURI" := JString "ipfs://c"]>
          (<["contractName" := JString "Test"]> ∅))).

Definition fixture_mint : jsval := JObject {["tokenURI" := JString "ipfs://t"]}.

(** A chain interface that accepts every signature and echoes simulated
    requests. *)
Definition accepting_client : PublicClient :=
  {| readContract := fun _ c =>
       if String.eqb (rd_functionName c) "getContractAddress"
       then Ok (JString fixture_address)
       else Ok (JArray [JBool true; JString fixture_address; JString "0xA"]);
     simulateContract := fun _ c => Ok c |}.

(** A chain interface that rejects every signature. *)
Definition rejecting_client : PublicClient :=
  {| readContract := fun _ c =>
       if String.eqb (rd_functionName c) "getContractAddress"
       then Ok (JString fixture_address)
       else Ok (JArray [JBool false; JString fixture_address; JString "0xB"]);
     simulateContract := fun _ c => Ok c |}.

Definition fixture_wallet : WalletClient :=
  {| wallet_account := JString "0xA";
     signTypedData := fun _ _ => Ok (JString "0x5167");
     writeContract := fun _ _ => Ok (JString "0x7a11") |}.

Definition fixture_tables : gmap Z string :=
  <[999 := "0x0000000000000000000000000000000000000999"]>
  (<[7777777 := "0x0000000000000000000000000000000007777777"]> ∅).

(** A registry that answers every request with status [code] and the
    JSON body [body]. *)
Definition constant_registry (code : Z) (body : jsval) : Env :=
  {| fetch := fun _ _ => Ok {| status := code; json := Ok body |};
     JSON_stringify := fun _ => Ok (JString "{}");
     createPublicClient := fun _ => accepting_client;
     preminterTypedDataDefinition := fun verifyingContract premintConfig chainId =>
       Ok (JObject (<["message" := premintConfig]>
                   (<["domain" := JObject
                        (<["verifyingContract" := verifyingContract]>
                        (<["chainId" := JNumber chainId]> ∅))]> ∅)));
     zoraCreator1155PremintExecutorImplABI := JArray [];
     zoraCreator1155PremintExecutorImplAddress := fixture_tables;
     zoraCreatorFixedPriceSaleStrategyAddress := fixture_tables |}.

Definition fixture_env : Env :=
  constant_registry 200 (JObject {["next_uid" := JNumber 3]}).

Definition failing_registry : Env :=
  constant_registry 500 (JObject {["error" := JString "internal"]}).

Definition fixture_api (c : Chain) (n : NetworkConfig) : PreminterAPI :=
  {| network := n; chain := c; rewardPerToken := 777000000000000 |}.

Definition foundry_api : PreminterAPI :=
  fixture_api foundry
    {| chainId := 31337; isTestnet := true; zoraPathChainName := "zora";
       zoraBackendChainName := ZORA_TESTNET |}.

Definition zora_api : PreminterAPI :=
  fixture_api zora
    {| chainId := 7777777; isTestnet := false; zoraPathChainName := "zora";
       zoraBackendChainName := ZORA_MAINNET |}.

Definition fixture_tokenConfig : gmap string jsval :=
  <["tokenURI" := JString "ipfs://t"]>
  (<["maxSupply" := JBigInt 18446744073709551615]>
  (<["pricePerToken" := JBigInt 0]>
  (<["mintStart" := JBigInt 1]>
  (<["mintDuration" := JBigInt 604800]>
  (<["maxTokensPerAddress" := JBigInt 0]>
  (<["royaltyMintSchedule" := JNumber 0]>
  (<["royaltyBPS" := JNumber 1000]>
  (<["royaltyRecipient" := JString "0xA"]>
  (<["fixedPriceMinter" := JString "0xF"]> ∅))))))))).

Definition fixture_premintConfig : jsval :=
  premintConfig_of fixture_tokenConfig (JNumber 3) false.

(** The wire form of the fixture, and a registry record that carries it. *)
Definition fixture_wire_tokenConfig : gmap string jsval :=
  <["maxTokensPerAddress" := JString "0"]>
  (<["mintDuration" := JString "604800"]>
  (<["mintStart" := JString "1"]>
  (<["pricePerToken" := JString "0"]>
  (<["maxSupply" := JString "18446744073709551615"]> fixture_tokenConfig)))).

Definition fixture_wire_premint : jsval :=
  JObject (<["tokenConfig" := JObject fixture_wire_tokenConfig]>
             (own_props fixture_premintConfig)).

Definition fixture_record : jsval :=
  JObject (<["collection" := fixture_collection]>
          (<["premint" := fixture_wire_premint]>
          (<["chain_name" := JString ZORA_TESTNET]>
          (<["signature" := JString "0x5167"]> ∅)))).
(** ** Vocabulary of the further properties *)

(** The place of an external call in the flow of [createPremint]: the
    address read, the uid GET, the wallet signature, the verification
    read, the registry POST; anything else is out of the flow. *)
Definition phase (e : event) : nat :=
  match e with
  | EReadContract c =>
      if String.eqb (rd_functionName c) "getContractAddress" then 0%nat
      else if String.eqb (rd_functionName c) "isValidSignature" then 3%nat
      else 5%nat
  | EFetch r => match req_method r with GET => 1%nat | POST => 4%nat end
  | ESignTypedData _ => 2%nat
  | ESimulateContract _ | EWriteContract _ => 5%nat
  end.

Fixpoint increasing (l : list nat) : bool :=
  match l with
  | [] => true
  | x :: l' =>
      match l' with
      | [] => true
      | y :: _ => (x <? y)%nat && increasing l'
      end
  end.

Definition is_registry_read (e : event) : Prop :=
  ∃ r, e = EFetch r ∧ req_method r = GET.

Definition is_slash (c : ascii) : bool := Ascii.eqb c "/".

Fixpoint no_slash (s : string) : bool :=
  match s with
  | EmptyString => true
  | String c s' => negb (is_slash c) && no_slash s'
  end.

(** The body [createPremint] hands to [post]. *)
Definition api_data
    (this : PreminterAPI) (collection encoded signature : jsval) : jsval :=
  JObject (<["signature" := signature]>
          (<["chain_name" := JString (zoraBackendChainName (network this))]>
          (<["premint" := encoded]>
          (<["collection" := collection]> ∅)))).

(** A [mint] argument that sets [maxSupply] to [undefined]. *)
Definition undefined_supply_mint : jsval :=
  JObject (<["maxSupply" := JUndefined]> {["tokenURI" := JString "ipfs://t"]}).

(** * Properties *)

(** ** Decimal printing and parsing *)

Lemma digit_of_pretty_N_char (d : N) :
  (d < 10)%N -> digit_of (pretty_N_char d) = Some d.
Proof.
  intros Hd.
  assert (d = 0 ∨ d = 1 ∨ d = 2 ∨ d = 3 ∨ d = 4 ∨ d = 5 ∨ d = 6
          ∨ d = 7 ∨ d = 8 ∨ d = 9)%N as Hc by lia.
  repeat (destruct Hc as [-> | Hc]; [reflexivity |]).
  by subst.
Qed.

Lemma is_decimal_pretty_N_char (d : N) : is_decimal (pretty_N_char d) = true.
Proof. unfold pretty_N_char. by repeat case_match. Qed.

Lemma parse_digits_pretty_N_go (x : N) :
  ∀ s, ∃ k, ∀ acc,
    parse_digits 10 (pretty_N_go x s) acc
    = parse_digits 10 s (acc * 10 ^ k + x)%N.
Proof.
  induction (N.lt_wf_0 x) as [x _ IH]; intros s.
  destruct (decide (x = 0%N)) as [-> | Hx].
  - exists 0%N. intros acc. rewrite pretty_N_go_0. f_equal. lia.
  - assert (0 < x)%N as Hpos by lia.
    destruct (IH (x `div` 10)%N (N.div_lt x 10 Hpos eq_refl)
                 (String (pretty_N_char (x `mod` 10)) s)) as [k Hk].
    exists (N.succ k). intros acc.
    rewrite pretty_N_go_step by done. rewrite Hk. cbn [parse_digits].
    rewrite digit_of_pretty_N_char by (apply N.mod_lt; lia).
    assert ((x `mod` 10 <? 10)%N = true) as ->
      by (apply N.ltb_lt, N.mod_lt; lia).
    f_equal. rewrite N.pow_succ_r'.
    pose proof (N.div_mod x 10). lia.
Qed.

Lemma all_decimal_pretty_N_go (x : N) :
  ∀ s, all_decimal s = true -> all_decimal (pretty_N_go x s) = true.
Proof.
  induction (N.lt_wf_0 x) as [x _ IH]; intros s Hs.
  destruct (decide (x = 0%N)) as [-> | Hx]; [by rewrite pretty_N_go_0 |].
  rewrite pretty_N_go_step by lia.
  apply IH; [apply N.div_lt; lia |].
  cbn. by rewrite is_decimal_pretty_N_char.
Qed.

Lemma pretty_N_go_nonempty (x : N) :
  ∀ s, s ≠ EmptyString -> pretty_N_go x s ≠ EmptyString.
Proof.
  induction (N.lt_wf_0 x) as [x _ IH]; intros s Hs.
  destruct (decide (x = 0%N)) as [-> | Hx]; [by rewrite pretty_N_go_0 |].
  rewrite pretty_N_go_step by lia.
  apply IH; [apply N.div_lt; lia | done].
Qed.

Lemma digits_decimal p : all_decimal (digits p) = true.
Proof. by apply all_decimal_pretty_N_go. Qed.

Lemma digits_nonempty p : digits p ≠ EmptyString.
Proof.
  unfold digits. rewrite pretty_N_go_step by lia.
  by apply pretty_N_go_nonempty.
Qed.

Lemma parse_radix_digits p : parse_radix 10 (digits p) = Some (Zpos p).
Proof.
  pose proof (digits_nonempty p) as Hne.
  unfold parse_radix. destruct (digits p) eqn:Hd; [done |].
  rewrite <- Hd. unfold digits.
  destruct (parse_digits_pretty_N_go (Npos p) "") as [k ->].
  cbn. done.
Qed.

Lemma is_decimal_not_white c : is_decimal c = true -> is_white_space c = false.
Proof.
  unfold is_decimal, is_white_space.
  rewrite andb_true_iff, !N.leb_le. intros [Hlo Hhi].
  apply orb_false_iff. split.
  - apply andb_false_iff. right. apply N.leb_gt. lia.
  - apply N.eqb_neq. lia.
Qed.

Lemma is_decimal_not_other c (x : ascii) :
  is_decimal c = true -> is_decimal x = false -> Ascii.eqb c x = false.
Proof.
  intros Hc Hx. destruct (Ascii.eqb_spec c x) as [-> | ]; congruence.
Qed.

Lemma trim_start_decimal c s :
  is_decimal c = true -> trim_start (String c s) = String c s.
Proof. intros Hc. cbn. by rewrite is_decimal_not_white. Qed.

Lemma trim_end_no_white_space s : no_white_space s = true -> trim_end s = s.
Proof.
  induction s as [| c s IH]; [done |]. cbn.
  intros [Hc Hs]%andb_true_iff. rewrite (IH Hs).
  apply negb_true_iff in Hc. destruct s; [by rewrite Hc | done].
Qed.

Lemma all_decimal_no_white_space s :
  all_decimal s = true -> no_white_space s = true.
Proof.
  induction s as [| c s IH]; [done |]. cbn.
  intros [Hc Hs]%andb_true_iff.
  by rewrite is_decimal_not_white, IH.
Qed.

Lemma StrIntegerLiteral_decimal t :
  all_decimal t = true -> t ≠ EmptyString ->
  StrIntegerLiteral t = parse_radix 10 t.
Proof.
  destruct t as [| c r]; [done |]. intros [Hc Hr]%andb_true_iff _.
  unfold StrIntegerLiteral, ascii_in.
  rewrite !(is_decimal_not_other c) by done.
  destruct (Ascii.eqb c "0"); [| done].
  destruct r as [| p r']; [done |].
  apply andb_true_iff in Hr as [Hp _].
  by rewrite !(is_decimal_not_other p) by done.
Qed.

Lemma StringToBigInt_digits p : StringToBigInt (digits p) = Some (Zpos p).
Proof.
  pose proof (digits_nonempty p) as Hne.
  pose proof (digits_decimal p) as Hdec.
  unfold StringToBigInt, trim.
  destruct (digits p) as [| c r] eqn:Hd; [done |].
  pose proof Hdec as [Hc _]%andb_true_iff.
  rewrite trim_start_decimal by done.
  rewrite trim_end_no_white_space by by apply all_decimal_no_white_space.
  rewrite StrIntegerLiteral_decimal by done.
  rewrite <- Hd. apply parse_radix_digits.
Qed.

Lemma StringToBigInt_minus_digits p :
  StringToBigInt (String "-" (digits p)) = Some (Zneg p).
Proof.
  unfold StringToBigInt, trim.
  change (trim_start (String "-" (digits p))) with (String "-" (digits p)).
  rewrite trim_end_no_white_space
    by (cbn; apply all_decimal_no_white_space, digits_decimal).
  unfold StrIntegerLiteral. change (Ascii.eqb "-" "-") with true. cbv iota.
  by rewrite parse_radix_digits.
Qed.

(** Printing a [bigint] in decimal and reading it back with [BigInt]
    returns the same integer. *)
Lemma StringToBigInt_pretty (z : Z) : StringToBigInt (pretty z) = Some z.
Proof.
  destruct z as [| p | p].
  - reflexivity.
  - apply StringToBigInt_digits.
  - apply StringToBigInt_minus_digits.
Qed.

Lemma BigInt_toString (z : Z) :
  method_toString (JBigInt z) ≫= (fun s => BigInt (JString s)) = Ok z.
Proof. cbn. by rewrite StringToBigInt_pretty. Qed.

(** ** Wire format: [encodePremintForAPI] and [convertPremint] *)

Ltac js_simpl :=
  cbn [default from_option id mbind mret fmap result_bind result_ret
       result_fmap own_props method_toString ToString BigInt].

Ltac in_fields := unfold bigint_fields, integer_fields; repeat constructor.

Lemma get_prop_JObject o k :
  get_prop (JObject o) k = Ok (default JUndefined (o !! k)).
Proof. reflexivity. Qed.

Lemma bigint_fields_typed tc :
  bigint_typed tc ->
  ∃ a b c d e,
    tc !! "maxSupply" = Some (JBigInt a)
    ∧ tc !! "pricePerToken" = Some (JBigInt b)
    ∧ tc !! "mintStart" = Some (JBigInt c)
    ∧ tc !! "mintDuration" = Some (JBigInt d)
    ∧ tc !! "maxTokensPerAddress" = Some (JBigInt e).
Proof.
  intros H.
  destruct (H "maxSupply") as [a Ha]; [in_fields |].
  destruct (H "pricePerToken") as [b Hb]; [in_fields |].
  destruct (H "mintStart") as [c Hc]; [in_fields |].
  destruct (H "mintDuration") as [d Hd]; [in_fields |].
  destruct (H "maxTokensPerAddress") as [e He]; [in_fields |].
  by exists a, b, c, d, e.
Qed.

(** The encoder on a well-typed configuration, in closed form. *)
Lemma encodePremintForAPI_typed po tc a b c d e :
  po !! "tokenConfig" = Some (JObject tc) ->
  tc !! "maxSupply" = Some (JBigInt a) ->
  tc !! "pricePerToken" = Some (JBigInt b) ->
  tc !! "mintStart" = Some (JBigInt c) ->
  tc !! "mintDuration" = Some (JBigInt d) ->
  tc !! "maxTokensPerAddress" = Some (JBigInt e) ->
  encodePremintForAPI (JObject po)
  = Ok (JObject
      (<["tokenConfig" := JObject
          (<["maxTokensPerAddress" := JString (pretty e)]>
          (<["mintDuration" := JString (pretty d)]>
          (<["mintStart" := JString (pretty c)]>
          (<["pricePerToken" := JString (pretty b)]>
          (<["maxSupply" := JString (pretty a)]> tc)))))]>
       (delete "tokenConfig" po))).
Proof.
  intros Htc Ha Hb Hc Hd He. unfold encodePremintForAPI.
  rewrite get_prop_JObject, Htc. js_simpl.
  rewrite !get_prop_JObject, Ha, Hb, Hc, Hd, He.
  reflexivity.
Qed.

(** The decoder on a wire object whose five members are decimal text. *)
Lemma convertPremint_wire wo wtc a b c d e :
  wo !! "tokenConfig" = Some (JObject wtc) ->
  wtc !! "maxSupply" = Some (JString (pretty a)) ->
  wtc !! "pricePerToken" = Some (JString (pretty b)) ->
  wtc !! "mintStart" = Some (JString (pretty c)) ->
  wtc !! "mintDuration" = Some (JString (pretty d)) ->
  wtc !! "maxTokensPerAddress" = Some (JString (pretty e)) ->
  convertPremint (JObject wo)
  = Ok (JObject
      (<["tokenConfig" := JObject
          (<["maxTokensPerAddress" := JBigInt e]>
          (<["mintDuration" := JBigInt d]>
          (<["mintStart" := JBigInt c]>
          (<["pricePerToken" := JBigInt b]>
          (<["maxSupply" := JBigInt a]> wtc)))))]> wo)).
Proof.
  intros Htc Ha Hb Hc Hd He. unfold convertPremint.
  rewrite get_prop_JObject, Htc. js_simpl.
  rewrite !get_prop_JObject, Ha, Hb, Hc, Hd, He. js_simpl.
  rewrite !StringToBigInt_pretty.
  reflexivity.
Qed.

Ltac map_cases k :=
  apply map_eq; intros k;
  repeat (rewrite lookup_insert; case_decide; [by subst |]);
  try done.

(** C4. Decoding the encoded wire form of a premint configuration gives
    back the configuration itself: whatever integers the five [bigint]
    members [maxSupply], [pricePerToken], [mintStart], [mintDuration] and
    [maxTokensPerAddress] hold (0, 1 and 2^64 - 1 included), they come
    back as the same [bigint]s, and so does every other member. *)
Theorem wire_round_trip (po tc : gmap string jsval) :
  po !! "tokenConfig" = Some (JObject tc) ->
  bigint_typed tc ->
  encodePremintForAPI (JObject po) ≫= convertPremint = Ok (JObject po).
Proof.
  intros Htc (a & b & c & d & e & Ha & Hb & Hc & Hd & He)%bigint_fields_typed.
  rewrite (encodePremintForAPI_typed po tc a b c d e) by done. js_simpl.
  erewrite (convertPremint_wire _ _ a b c d e);
    [| by rewrite lookup_insert_eq | by simplify_map_eq ..].
  do 2 f_equal.
  rewrite insert_insert_eq, insert_delete_eq.
  apply insert_id. rewrite Htc. do 2 f_equal.
  map_cases k.
Qed.

Lemma fixture_tokenConfig_typed : bigint_typed fixture_tokenConfig.
Proof.
  intros k Hk. unfold bigint_fields in Hk.
  repeat (apply elem_of_cons in Hk as [-> | Hk];
          [eexists; vm_compute; reflexivity |]).
  by apply elem_of_nil in Hk.
Defined.

Lemma wire_round_trip_witness :
  own_props fixture_premintConfig !! "tokenConfig"
    = Some (JObject fixture_tokenConfig)
  ∧ bigint_typed fixture_tokenConfig
  ∧ encodePremintForAPI fixture_premintConfig ≫= convertPremint
    = Ok fixture_premintConfig.
Proof.
  split; [vm_compute; reflexivity |].
  split; [exact fixture_tokenConfig_typed |].
  apply (wire_round_trip _ fixture_tokenConfig);
    [vm_compute; reflexivity | exact fixture_tokenConfig_typed].
Defined.

(** The decoder restores the three boundary values from their text. *)
Example BigInt_boundaries :
  BigInt (JString "0") = Ok 0
  ∧ BigInt (JString "1") = Ok 1
  ∧ BigInt (JString "18446744073709551615") = Ok (2 ^ 64 - 1).
Proof. by vm_compute. Qed.

(** C3, as amended. On a well-typed configuration the encoder turns the
    five [bigint] members of [tokenConfig] into decimal text and copies
    every other member unchanged: [royaltyMintSchedule] and [royaltyBPS]
    stay numbers, and the members of the configuration other than
    [tokenConfig] are untouched. *)
Theorem encodePremintForAPI_bigints_to_decimal (po tc : gmap string jsval) :
  po !! "tokenConfig" = Some (JObject tc) ->
  bigint_typed tc ->
  ∃ tc',
    encodePremintForAPI (JObject po)
      = Ok (JObject (<["tokenConfig" := JObject tc']> po))
    ∧ decimal_strings_at bigint_fields tc tc'
    ∧ tc' !! "royaltyMintSchedule" = tc !! "royaltyMintSchedule"
    ∧ tc' !! "royaltyBPS" = tc !! "royaltyBPS".
Proof.
  intros Htc (a & b & c & d & e & Ha & Hb & Hc & Hd & He)%bigint_fields_typed.
  eexists. split; [| split; [split |]].
  - rewrite (encodePremintForAPI_typed po tc a b c d e) by done.
    by rewrite insert_delete_eq.
  - intros k v Hk Hv. unfold bigint_fields in Hk.
    repeat (apply elem_of_cons in Hk as [-> | Hk];
            [rewrite ?Ha, ?Hb, ?Hc, ?Hd, ?He in Hv; injection Hv as <-;
             eexists; split; [by left | by simplify_map_eq] |]).
    by apply elem_of_nil in Hk.
  - intros k Hk. unfold bigint_fields in Hk.
    rewrite !not_elem_of_cons in Hk.
    destruct Hk as (? & ? & ? & ? & ? & _).
    by rewrite !lookup_insert_ne.
  - by rewrite !lookup_insert_ne.
Qed.

Lemma encodePremintForAPI_bigints_to_decimal_witness :
  own_props fixture_premintConfig !! "tokenConfig"
    = Some (JObject fixture_tokenConfig)
  ∧ bigint_typed fixture_tokenConfig
  ∧ ∃ tc',
      encodePremintForAPI fixture_premintConfig
        = Ok (JObject (<["tokenConfig" := JObject tc']>
                         (own_props fixture_premintConfig)))
      ∧ decimal_strings_at bigint_fields fixture_tokenConfig tc'
      ∧ tc' !! "royaltyMintSchedule" = fixture_tokenConfig !! "royaltyMintSchedule"
      ∧ tc' !! "royaltyBPS" = fixture_tokenConfig !! "royaltyBPS".
Proof.
  split; [vm_compute; reflexivity |].
  split; [exact fixture_tokenConfig_typed |].
  apply (encodePremintForAPI_bigints_to_decimal _ fixture_tokenConfig);
    [vm_compute; reflexivity | exact fixture_tokenConfig_typed].
Defined.

(** C3, as stated, fails: [royaltyBPS] (and [royaltyMintSchedule]) leave
    the encoder as the numbers they were, not as decimal text. *)
Lemma encodePremintForAPI_keeps_numbers :
  encodePremintForAPI fixture_premintConfig = Ok fixture_wire_premint
  ∧ fixture_wire_tokenConfig !! "royaltyBPS" = Some (JNumber 1000)
  ∧ fixture_wire_tokenConfig !! "royaltyMintSchedule" = Some (JNumber 0)
  ∧ ¬ decimal_strings_at integer_fields
        fixture_tokenConfig fixture_wire_tokenConfig.
Proof.
  assert (fixture_wire_tokenConfig !! "royaltyBPS" = Some (JNumber 1000))
    as Hbps by (vm_compute; reflexivity).
  split; [vm_compute; reflexivity |].
  split; [exact Hbps |].
  split; [vm_compute; reflexivity |].
  intros [H _].
  destruct (H "royaltyBPS" (JNumber 1000)) as (z & Hz & Hl);
    [in_fields | vm_compute; reflexivity |].
  rewrite Hbps in Hl. discriminate.
Qed.

(** ** Running suspending computations *)

Lemma IO_bind_run {A B} (m : IO A) (f : A -> IO B) (t : trace) :
  (m ≫= f) t
  = match m t with
    | (Ok a, t1) => f a t1
    | (Throw e, t1) => (Throw e, t1)
    end.
Proof. reflexivity. Qed.

Lemma IO_bind_inv {A B} (m : IO A) (f : A -> IO B) (t t' : trace) r :
  (m ≫= f) t = (r, t') ->
  (∃ e, m t = (Throw e, t') ∧ r = Throw e)
  ∨ (∃ a t1, m t = (Ok a, t1) ∧ f a t1 = (r, t')).
Proof.
  rewrite IO_bind_run. destruct (m t) as [[a | e] t1]; intros Hr.
  - right. by exists a, t1.
  - left. exists e. by simplify_eq.
Qed.

Lemma lift_run {A} (x : result A) (t : trace) : lift x t = (x, t).
Proof. reflexivity. Qed.

Lemma perform_run {A} (e : event) (answer : trace -> result A) (t : trace) :
  perform e answer t = (answer t, (t ++ [e])%list).
Proof. reflexivity. Qed.

(** [get] sends one GET and hands back whatever [response.json()]
    yields; the status of the response is not looked at. *)
Lemma get_run (E : Env) (path : string) (t : trace) :
  get E path t
  = (fetch E t (get_request path) ≫= json,
     (t ++ [EFetch (get_request path)])%list).
Proof.
  unfold get. rewrite IO_bind_run, perform_run.
  by destruct (fetch E t (get_request path)).
Qed.

(** [post] serialises, sends one POST and throws on any status other
    than 200, naming the status. *)
Lemma post_run (E : Env) (path : string) (data : jsval) (t : trace) :
  post E path data t
  = match JSON_stringify E data with
    | Throw e => (Throw e, t)
    | Ok body =>
        (response ← fetch E t (post_request path body);
         if negb (status response =? 200)
         then Throw (Error ("Bad response: " +:+ pretty (status response)))
         else json response,
         (t ++ [EFetch (post_request path body)])%list)
    end.
Proof.
  unfold post. rewrite IO_bind_run, lift_run.
  destruct (JSON_stringify E data) as [body | e]; [| done].
  rewrite IO_bind_run, perform_run.
  destruct (fetch E t (post_request path body)) as [response | e]; [| done].
  cbn [mbind result_bind]. by destruct (negb (status response =? 200)).
Qed.

Lemma post_rejects_status (E : Env) path data body response (t : trace) :
  JSON_stringify E data = Ok body ->
  fetch E t (post_request path body) = Ok response ->
  status response ≠ 200 ->
  fst (post E path data t)
  = Throw (Error ("Bad response: " +:+ pretty (status response))).
Proof.
  intros Hb Hf Hs. rewrite post_run, Hb. cbn [fst]. rewrite Hf.
  cbn [mbind result_bind].
  by destruct (Z.eqb_spec (status response) 200).
Qed.

Lemma get_ignores_status (E : Env) path response (t : trace) :
  fetch E t (get_request path) = Ok response ->
  fst (get E path t) = json response.
Proof. intros Hf. by rewrite get_run, Hf. Qed.

(** C1. The GET side of the registry does not look at the status: asked
    for a premint record of a registry that answers 500 with an error
    body, [getPremintData] returns that body as the record, where the
    same answer makes [post] throw [Bad response: 500]. *)
Theorem getPremintData_returns_body_of_failed_request :
  getPremintData failing_registry foundry_api "0xabc" 3 []
  = (Ok (JObject {["error" := JString "internal"]}),
     [EFetch (get_request
        "https://api.zora.co/premint/signature/ZORA-TESTNET/0xabc/3")])
  ∧ fst (post failing_registry "https://api.zora.co/premint/signature"
           fixture_record [])
    = Throw (Error "Bad response: 500").
Proof. split; vm_compute; reflexivity. Qed.

(** ** Network resolution *)

Lemma reward_constant : BigInt (JString "777000000000000") = Ok 777000000000000.
Proof. vm_compute. reflexivity. Qed.

Lemma PreminterAPI_constructor_run (c : Chain) :
  PreminterAPI_constructor c
  = match networkConfigByChain !! Chain_id c with
    | None => Throw (Error ("Not configured for chain " +:+ pretty (Chain_id c)))
    | Some n =>
        Ok {| network := n; chain := c; rewardPerToken := 777000000000000 |}
    end.
Proof. unfold PreminterAPI_constructor. by rewrite reward_constant. Qed.

Lemma networkConfigByChain_supported (i : Z) :
  is_Some (networkConfigByChain !! i) <-> i = 7777777 ∨ i = 999 ∨ i = 31337.
Proof.
  unfold networkConfigByChain, foundry, zoraTestnet, zora. cbn [Chain_id].
  rewrite !lookup_insert, lookup_empty.
  repeat case_decide; subst; split; intros Hs;
    try lia; try (by eexists); by destruct Hs as [? ?].
Qed.

(** The part of C2 that holds: the backend names follow the table, and a
    chain without an entry is refused. *)
Lemma PreminterAPI_constructor_backend :
  (zoraBackendChainName <$> networkConfigByChain !! 7777777) = Some ZORA_MAINNET
  ∧ (zoraBackendChainName <$> networkConfigByChain !! 999) = Some ZORA_TESTNET
  ∧ (zoraBackendChainName <$> networkConfigByChain !! 31337) = Some ZORA_TESTNET.
Proof. by vm_compute. Qed.

Lemma PreminterAPI_constructor_unsupported (c : Chain) :
  Chain_id c ≠ 7777777 -> Chain_id c ≠ 999 -> Chain_id c ≠ 31337 ->
  PreminterAPI_constructor c
  = Throw (Error ("Not configured for chain " +:+ pretty (Chain_id c))).
Proof.
  intros H1 H2 H3. rewrite PreminterAPI_constructor_run.
  destruct (networkConfigByChain !! Chain_id c) as [n |] eqn:Hn; [| done].
  assert (is_Some (networkConfigByChain !! Chain_id c)) as Hs by by eexists.
  apply networkConfigByChain_supported in Hs. lia.
Qed.

(** C2. The entry under the key of [zoraTestnet] (chain id 999) carries
    the chain id of [zora] (7777777): constructing the API for chain 999
    succeeds with a network configuration whose [chainId] is not the id
    that was looked up.  The two other entries carry their own key. *)
Theorem zoraTestnet_config_carries_mainnet_id :
  ∃ api,
    PreminterAPI_constructor zoraTestnet = Ok api
    ∧ Chain_id (chain api) = 999
    ∧ chainId (network api) = 7777777
    ∧ (chainId <$> networkConfigByChain !! 7777777) = Some 7777777
    ∧ (chainId <$> networkConfigByChain !! 31337) = Some 31337.
Proof. eexists. by vm_compute. Qed.

(** ** Execution: the value attached to [premint] *)

(** One step of a run whose first action is a pure, possibly throwing,
    evaluation: either it threw and the run ends with the history
    unchanged, or it produced a value and the run goes on. *)
Ltac io_lift Hrun :=
  let Hm := fresh "Hstep" in
  let Hr := fresh "Hresult" in
  apply IO_bind_inv in Hrun as [(? & Hm & Hr) | (? & ? & Hm & Hrun)];
  rewrite lift_run in Hm; injection Hm as Hm <-; [simplify_eq |].

Lemma constructed_reward (c : Chain) (this : PreminterAPI) :
  PreminterAPI_constructor c = Ok this ->
  rewardPerToken this = 777000000000000.
Proof.
  rewrite PreminterAPI_constructor_run.
  destruct (networkConfigByChain !! Chain_id c); [| done].
  by intros [= <-].
Qed.

(** C5. An API instance built by the constructor attaches exactly
    [quantityToMint * 777000000000000] to every [premint] call it issues,
    the simulated one and the state-mutating one (given that a supplied
    simulation hands the value on to the request it returns, as viem's
    does); a successful run has sent the state-mutating call. *)
Theorem executePremintWithWallet_value
    (E : Env) (c : Chain) (this : PreminterAPI) (data account : jsval)
    (walletClient : WalletClient) (quantityToMint : Z) (mintComment : string)
    (publicClient : option PublicClient) (t t' : trace) (r : result jsval) :
  PreminterAPI_constructor c = Ok this ->
  (∀ client, publicClient = Some client -> simulation_keeps_value client) ->
  executePremintWithWallet E this data account walletClient
    quantityToMint mintComment publicClient t = (r, t') ->
  ∃ evs : trace,
    t' = (t ++ evs)%list
    ∧ (∀ call, ESimulateContract call ∈ evs ∨ EWriteContract call ∈ evs ->
         tx_functionName call = "premint"
         ∧ tx_value call = quantityToMint * 777000000000000)
    ∧ (∀ hash, r = Ok hash ->
         ∃ call, EWriteContract call ∈ evs
                 ∧ tx_value call = quantityToMint * 777000000000000).
Proof.
  intros Hreward%constructed_reward Hsim Hrun.
  unfold executePremintWithWallet in Hrun. rewrite Hreward in Hrun.
  repeat (io_lift Hrun;
          [exists []; rewrite app_nil_r; split; [done |];
           split; [intros call [Hin | Hin]; by apply elem_of_nil in Hin | done]
          |]).
  destruct publicClient as [client |].
  - specialize (Hsim client eq_refl).
    apply IO_bind_inv in Hrun as [(e & Hm & ->) | (request & ? & Hm & Hrun)];
      rewrite perform_run in Hm; injection Hm as Hm <-.
    + eexists. split; [done |]. split; [| done].
      intros call [Hin | Hin]; apply list_elem_of_singleton in Hin; by simplify_eq.
    + rewrite perform_run in Hrun. injection Hrun as Hw <-.
      apply Hsim in Hm as [Hv Hf]. cbn in Hv, Hf.
      eexists. split; [by rewrite <- app_assoc |]. split.
      * intros call [Hin | Hin];
          repeat (apply elem_of_cons in Hin as [Hin | Hin]);
          try (by apply elem_of_nil in Hin); by simplify_eq.
      * intros hash _. exists request. split; [| done].
        apply list_elem_of_further, list_elem_of_here.
  - rewrite perform_run in Hrun. injection Hrun as Hw <-.
    eexists. split; [done |]. split.
    + intros call [Hin | Hin]; apply list_elem_of_singleton in Hin; by simplify_eq.
    + intros hash _. eexists. split; [apply list_elem_of_here | done].
Qed.

(** On the fixtures: three units, simulated first, send
    2331000000000000. *)
Lemma executePremintWithWallet_value_witness :
  PreminterAPI_constructor foundry = Ok foundry_api
  ∧ (∀ client, Some accepting_client = Some client ->
       simulation_keeps_value client)
  ∧ fst (executePremintWithWallet fixture_env foundry_api fixture_record
           JUndefined fixture_wallet 3 "gm" (Some accepting_client) [])
    = Ok (JString "0x7a11")
  ∧ written_values
      (snd (executePremintWithWallet fixture_env foundry_api fixture_record
              JUndefined fixture_wallet 3 "gm" (Some accepting_client) []))
    = [2331000000000000]
  ∧ ∃ evs : trace,
      snd (executePremintWithWallet fixture_env foundry_api fixture_record
             JUndefined fixture_wallet 3 "gm" (Some accepting_client) [])
        = ([] ++ evs)%list
      ∧ (∀ call, ESimulateContract call ∈ evs ∨ EWriteContract call ∈ evs ->
           tx_functionName call = "premint"
           ∧ tx_value call = 3 * 777000000000000)
      ∧ (∀ hash,
           fst (executePremintWithWallet fixture_env foundry_api fixture_record
                  JUndefined fixture_wallet 3 "gm" (Some accepting_client) [])
             = Ok hash ->
           ∃ call, EWriteContract call ∈ evs
                   ∧ tx_value call = 3 * 777000000000000).
Proof.
  assert (PreminterAPI_constructor foundry = Ok foundry_api) as Hbuilt
    by (vm_compute; reflexivity).
  assert (∀ client, Some accepting_client = Some client ->
            simulation_keeps_value client) as Hecho.
  { intros client [= <-] h c c' [= <-]. split; reflexivity. }
  split; [exact Hbuilt |]. split; [exact Hecho |].
  split; [vm_compute; reflexivity |]. split; [vm_compute; reflexivity |].
  apply (executePremintWithWallet_value fixture_env foundry foundry_api
           fixture_record JUndefined fixture_wallet 3 "gm"
           (Some accepting_client) []);
    [exact Hbuilt | exact Hecho | apply surjective_pairing].
Defined.

(** ** Allocation of the uid *)

Lemma createPremint_uid_explicit
    (E : Env) (this : PreminterAPI) (es : option ExecutionSettings)
    (newContractAddress : jsval) (u : Z) (t : trace) :
  explicit_uid es = JNumber u -> u ≠ 0 ->
  createPremint_uid E this es newContractAddress t = (Ok (JNumber u), t).
Proof.
  intros Hes Hu. unfold createPremint_uid. rewrite Hes. cbn [truthy].
  destruct (Z.eqb_spec u 0) as [| _]; [lia |]. cbn [negb].
  rewrite IO_bind_run. cbn [mret IO_ret truthy].
  destruct (Z.eqb_spec u 0); [lia | reflexivity].
Qed.

Lemma createPremint_uid_fetch
    (E : Env) (this : PreminterAPI) (es : option ExecutionSettings)
    (address : string) (t : trace) :
  uid_not_provided es ->
  createPremint_uid E this es (JString address) t
  = (body ← fetch E t (get_request (next_uid_path this (toLowerCase address)))
             ≫= json;
     next_uid ← get_prop body "next_uid";
     if truthy next_uid then Ok next_uid
     else Throw (Error "UID is missing but required"),
     (t ++ [EFetch (get_request (next_uid_path this (toLowerCase address)))])%list).
Proof.
  intros Hes. unfold createPremint_uid.
  assert (truthy (explicit_uid es) = false) as ->
    by (by destruct Hes as [-> | ->]).
  cbn [negb method_toLowerCase]. rewrite !IO_bind_run, lift_run.
  rewrite IO_bind_run, get_run.
  destruct (fetch E t _ ≫= json) as [body | e]; [| done].
  rewrite lift_run. cbn [mbind result_bind].
  destruct (get_prop body "next_uid") as [v | e]; [| done].
  cbn [mbind result_bind]. destruct (truthy v); reflexivity.
Qed.

(** C6, as amended. In [createPremint], a non-zero explicit uid is the
    uid, and the registry is not asked.  An absent uid or an explicit [0]
    makes one GET to the [next_uid] path built from the backend chain name
    and the lower-cased deployed address.  When the answer is a JSON value
    other than [null], the uid is its [next_uid] member, and when that
    member is missing or falsy the operation throws
    [UID is missing but required]. *)
Theorem createPremint_uid_allocation
    (E : Env) (this : PreminterAPI) (es : option ExecutionSettings)
    (address : string) (t : trace) :
  (∀ u, explicit_uid es = JNumber u -> u ≠ 0 ->
     createPremint_uid E this es (JString address) t = (Ok (JNumber u), t))
  ∧ (uid_not_provided es ->
     snd (createPremint_uid E this es (JString address) t)
       = (t ++ [EFetch (get_request
            (ZORA_API_BASE +:+ "signature/"
               +:+ zoraBackendChainName (network this) +:+ "/"
               +:+ toLowerCase address +:+ "/next_uid"))])%list
     ∧ ∀ response body,
         fetch E t (get_request (next_uid_path this (toLowerCase address)))
           = Ok response ->
         json response = Ok body ->
         body ≠ JNull -> body ≠ JUndefined ->
         ∃ next_uid,
           get_prop body "next_uid" = Ok next_uid
           ∧ fst (createPremint_uid E this es (JString address) t)
             = if truthy next_uid then Ok next_uid
               else Throw (Error "UID is missing but required")).
Proof.
  split.
  - intros u. apply createPremint_uid_explicit.
  - intros Hes. rewrite createPremint_uid_fetch by done. split; [done |].
    intros response body Hf Hj Hnull Hundefined. cbn [fst].
    rewrite Hf. cbn [mbind result_bind]. rewrite Hj. cbn [mbind result_bind].
    destruct (get_prop body "next_uid") as [next_uid | e] eqn:Hn.
    + by exists next_uid.
    + by destruct body.
Qed.

(** On the fixtures: an explicit uid 7 is used without a request; an
    explicit 0 makes the request and takes the registry's 3. *)
Lemma createPremint_uid_allocation_witness :
  createPremint_uid fixture_env foundry_api
    (Some {| deleted := None; uid := Some 7 |}) (JString fixture_address) []
    = (Ok (JNumber 7), [])
  ∧ registry_requests
      (snd (createPremint_uid fixture_env foundry_api
              (Some {| deleted := None; uid := Some 0 |})
              (JString fixture_address) []))
    = [(GET, "https://api.zora.co/premint/signature/ZORA-TESTNET/0xabcdef0123456789abcdef0123456789abcdef01/next_uid")]
  ∧ JObject {["next_uid" := JNumber 3]} ≠ JNull
  ∧ JObject {["next_uid" := JNumber 3]} ≠ JUndefined
  ∧ ∃ next_uid,
      get_prop (JObject {["next_uid" := JNumber 3]}) "next_uid" = Ok next_uid
      ∧ fst (createPremint_uid fixture_env foundry_api
               (Some {| deleted := None; uid := Some 0 |})
               (JString fixture_address) [])
        = if truthy next_uid then Ok next_uid
          else Throw (Error "UID is missing but required").
Proof.
  split; [| split; [| split; [| split]]].
  - apply (proj1 (createPremint_uid_allocation fixture_env foundry_api
                    (Some {| deleted := None; uid := Some 7 |})
                    fixture_address []) 7); [reflexivity | lia].
  - rewrite (proj1 (proj2 (createPremint_uid_allocation fixture_env foundry_api
                    (Some {| deleted := None; uid := Some 0 |})
                    fixture_address []) (or_intror eq_refl))).
    vm_compute. reflexivity.
  - discriminate.
  - discriminate.
  - apply (proj2 (proj2 (createPremint_uid_allocation fixture_env foundry_api
                    (Some {| deleted := None; uid := Some 0 |})
                    fixture_address []) (or_intror eq_refl))
             {| status := 200;
                json := Ok (JObject {["next_uid" := JNumber 3]}) |}
             (JObject {["next_uid" := JNumber 3]}));
      [reflexivity | reflexivity | discriminate | discriminate].
Defined.

(** The registry's 3 is the uid of the run above. *)
Example createPremint_uid_from_registry :
  fst (createPremint_uid fixture_env foundry_api
         (Some {| deleted := None; uid := Some 0 |})
         (JString fixture_address) [])
  = Ok (JNumber 3).
Proof. vm_compute. reflexivity. Qed.

(** C6, as stated, fails: with no explicit uid and a registry that
    answers the [next_uid] GET with the JSON value [null], neither source
    yields a usable uid, yet reading [next_uid] off [null] throws a
    [TypeError] before the missing-uid test is reached, in the uid stage
    and in the whole of [createPremint]. *)
Lemma createPremint_uid_null_answer :
  uid_not_provided None
  ∧ fetch (constant_registry 200 JNull) []
      (get_request (next_uid_path foundry_api (toLowerCase fixture_address)))
    = Ok {| status := 200; json := Ok JNull |}
  ∧ createPremint_uid (constant_registry 200 JNull) foundry_api None
      (JString fixture_address) []
    = (Throw TypeError,
       [EFetch (get_request
          "https://api.zora.co/premint/signature/ZORA-TESTNET/0xabcdef0123456789abcdef0123456789abcdef01/next_uid")])
  ∧ fst (createPremint (constant_registry 200 JNull) foundry_api (JString "0xA")
           fixture_collection fixture_mint (Some accepting_client)
           fixture_wallet None None [])
    = Throw TypeError
  ∧ fst (createPremint (constant_registry 200 JNull) foundry_api (JString "0xA")
           fixture_collection fixture_mint (Some accepting_client)
           fixture_wallet None None [])
    ≠ Throw (Error "UID is missing but required").
Proof.
  assert (fst (createPremint (constant_registry 200 JNull) foundry_api
                 (JString "0xA") fixture_collection fixture_mint
                 (Some accepting_client) fixture_wallet None None [])
          = Throw TypeError) as Hrun by (vm_compute; reflexivity).
  split; [by left |]. split; [reflexivity |].
  split; [vm_compute; reflexivity |]. split; [exact Hrun |].
  rewrite Hrun. discriminate.
Qed.

(** A registry answer without a usable [next_uid] ends the operation
    with the missing-uid error. *)
Example createPremint_uid_missing :
  fst (createPremint_uid failing_registry foundry_api None
         (JString fixture_address) [])
  = Throw (Error "UID is missing but required").
Proof. vm_compute. reflexivity. Qed.

(** [createPremint] returns the uid that the allocation produced. *)
Lemma createPremint_result_uid
    E this account collection mint publicClient walletClient es check
    (t t' : trace) ret :
  createPremint E this account collection mint publicClient walletClient
    es check t = (Ok ret, t') ->
  ∃ address t1 t2,
    createPremint_uid E this es address t1 = (Ok (result_uid ret), t2).
Proof.
  unfold createPremint. intros Hrun.
  apply IO_bind_inv in Hrun as [(? & _ & [=]) | (address & t1 & _ & Hrun)].
  apply IO_bind_inv in Hrun as [(? & _ & [=]) | (? & ? & Hm & Hrun)].
  rewrite lift_run in Hm. injection Hm as _ <-.
  apply IO_bind_inv in Hrun as [(? & _ & [=]) | (u & t2 & Hu & Hrun)].
  exists address, t1, t2. rewrite Hu.
  repeat (apply IO_bind_inv in Hrun as [(? & _ & [=]) | (? & ? & _ & Hrun)]).
  by injection Hrun as <- _.
Qed.

(** ** Verification before submission *)

(** The uid stage adds nothing to the history, or one GET. *)
Lemma createPremint_uid_trace
    (E : Env) (this : PreminterAPI) (es : option ExecutionSettings)
    (newContractAddress : jsval) (t t' : trace) r :
  createPremint_uid E this es newContractAddress t = (r, t') ->
  t' = t ∨ ∃ path, t' = (t ++ [EFetch (get_request path)])%list.
Proof.
  unfold createPremint_uid. intros Hrun.
  apply IO_bind_inv in Hrun as [(e & Hm & ->) | (u & t1 & Hm & Hrun)].
  - destruct (negb (truthy (explicit_uid es))); [| done].
    io_lift Hm; [by left |].
    apply IO_bind_inv in Hm as [(e' & Hm & _) | (? & ? & Hg & Hm)];
      rewrite get_run in *; simplify_eq; [by eauto |].
    rewrite lift_run in Hm. simplify_eq. by eauto.
  - assert (t1 = t') as ->
      by (destruct (negb (truthy u)); cbv [lift mret IO_ret] in Hrun;
          by simplify_eq).
    destruct (negb (truthy (explicit_uid es)));
      [| left; cbv [mret IO_ret] in Hm; by simplify_eq].
    io_lift Hm.
    apply IO_bind_inv in Hm as [(e' & Hm & ?) | (? & ? & Hg & Hm)];
      rewrite get_run in *; simplify_eq.
    rewrite lift_run in Hm. simplify_eq. by eauto.
Qed.

Lemma createPremint_check_invalid
    (E : Env) (this : PreminterAPI) (client : PublicClient)
    (collection premintConfig signature : jsval) (t : trace) :
  reports_invalid client ->
  createPremint_check E this client true collection premintConfig signature t
  = (Throw (Error "Invalid signature"),
     (t ++ [EReadContract
              (isValidSignature_request E this collection premintConfig
                 signature)])%list).
Proof.
  intros Hinv. unfold createPremint_check.
  destruct (Hinv t (isValidSignature_request E this collection premintConfig
                      signature) eq_refl)
    as (outcome & values & Hread & Hvalues & Hfalse).
  rewrite IO_bind_run, perform_run, Hread.
  rewrite IO_bind_run, lift_run, Hvalues.
  by rewrite Hfalse.
Qed.

Lemma getContractAddress_not_verification E this collection :
  ¬ is_verification (EReadContract (getContractAddress_request E this collection)).
Proof. by intros (c & [= <-] & Hf). Qed.

Lemma fetch_get_quiet path :
  ¬ is_registry_write (EFetch (get_request path))
  ∧ ¬ is_verification (EFetch (get_request path)).
Proof. split; [by intros (r & [= <-] & Hm) | by intros (c & [=] & _)]. Qed.

(** Closes the goal of [createPremint_invalid_signature] at a point where
    the run has ended: the new events are read off the final history, and
    each of them is looked at. *)
Ltac ended_run :=
  eexists; split;
  [ rewrite <- ?app_assoc; first [reflexivity | symmetry; apply app_nil_r] |];
  split;
  [ intros ev Hin (rq & -> & Hpost);
    repeat (apply elem_of_cons in Hin as [Hin | Hin] ||
            apply elem_of_app in Hin as [Hin | Hin]);
    try (by apply elem_of_nil in Hin); by simplify_eq
  | split; [by eexists |] ].

Ltac no_verification :=
  let Hin := fresh "Hin" in
  let Hf := fresh "Hf" in
  intros (? & Hin & (? & -> & Hf));
  repeat (apply elem_of_cons in Hin as [Hin | Hin] ||
          apply elem_of_app in Hin as [Hin | Hin]);
  try (by apply elem_of_nil in Hin); by simplify_eq/=.

(** C7. With signature checking on (the default), when the chain
    interface reports the signature invalid, [createPremint] fails, sends
    no POST to the registry, and, once the verification call has been
    made, the failure is [Invalid signature]. *)
Theorem createPremint_invalid_signature
    (E : Env) (this : PreminterAPI) (account collection mint : jsval)
    (publicClient : option PublicClient) (walletClient : WalletClient)
    (es : option ExecutionSettings) (checkSignature : option bool)
    (t t' : trace) (r : result CreatePremintResult) :
  checkSignature = None ∨ checkSignature = Some true ->
  reports_invalid (default (createPublicClient E (chain this)) publicClient) ->
  createPremint E this account collection mint publicClient walletClient
    es checkSignature t = (r, t') ->
  ∃ evs : trace,
    t' = (t ++ evs)%list
    ∧ (∀ e, e ∈ evs -> ¬ is_registry_write e)
    ∧ (∃ e, r = Throw e)
    ∧ ((∃ e, e ∈ evs ∧ is_verification e) -> r = Throw (Error "Invalid signature")).
Proof.
  intros Hcheck Hinv Hrun. unfold createPremint in Hrun.
  assert (default true checkSignature = true) as Hon
    by (by destruct Hcheck as [-> | ->]).
  rewrite Hon in Hrun. clear Hon Hcheck.
  change (match publicClient with
          | Some client => client
          | None => createPublicClient E (chain this)
          end)
    with (default (createPublicClient E (chain this)) publicClient) in Hrun.
  set (client := default (createPublicClient E (chain this)) publicClient) in *.
  cbv zeta in Hrun.
  apply IO_bind_inv in Hrun as [(e & Hm & ->) | (address & t1 & Hm & Hrun)];
    rewrite perform_run in Hm; injection Hm as Hread <-.
  { ended_run. no_verification. }
  io_lift Hrun; try (ended_run; no_verification).
  apply IO_bind_inv in Hrun as [(e & Hm & ->) | (u & t2 & Hm & Hrun)];
    apply createPremint_uid_trace in Hm as [-> | [path ->]];
    try (ended_run; no_verification).
  all: io_lift Hrun; try (ended_run; no_verification).
  all: apply IO_bind_inv in Hrun as [(e & Hm & ->) | (signature & t3 & Hm & Hrun)];
    rewrite perform_run in Hm; injection Hm as Hsign <-;
    [ended_run; no_verification |].
  all: apply IO_bind_inv in Hrun as [(e & Hm & ->) | (? & ? & Hm & Hrun)];
    rewrite createPremint_check_invalid in Hm by done; simplify_eq.
  all: ended_run; done.
Qed.

Lemma rejecting_client_reports_invalid : reports_invalid rejecting_client.
Proof.
  intros h c Hf. unfold rejecting_client. cbn [readContract]. rewrite Hf.
  by eexists _, _.
Defined.

(** On the fixtures: the run stops at the verification, after the GET of
    the uid and before any POST. *)
Lemma createPremint_invalid_signature_witness :
  (@None bool = None ∨ @None bool = Some true)
  ∧ reports_invalid
      (default (createPublicClient fixture_env (chain foundry_api))
         (Some rejecting_client))
  ∧ registry_requests
      (snd (createPremint fixture_env foundry_api (JString "0xA")
              fixture_collection fixture_mint (Some rejecting_client)
              fixture_wallet None None []))
    = [(GET, "https://api.zora.co/premint/signature/ZORA-TESTNET/0xabcdef0123456789abcdef0123456789abcdef01/next_uid")]
  ∧ ∃ evs : trace,
      snd (createPremint fixture_env foundry_api (JString "0xA")
             fixture_collection fixture_mint (Some rejecting_client)
             fixture_wallet None None [])
        = ([] ++ evs)%list
      ∧ (∀ e, e ∈ evs -> ¬ is_registry_write e)
      ∧ (∃ e,
           fst (createPremint fixture_env foundry_api (JString "0xA")
                  fixture_collection fixture_mint (Some rejecting_client)
                  fixture_wallet None None [])
             = Throw e)
      ∧ ((∃ e, e ∈ evs ∧ is_verification e) ->
         fst (createPremint fixture_env foundry_api (JString "0xA")
                fixture_collection fixture_mint (Some rejecting_client)
                fixture_wallet None None [])
           = Throw (Error "Invalid signature")).
Proof.
  split; [by left |].
  split; [exact rejecting_client_reports_invalid |].
  split; [vm_compute; reflexivity |].
  apply (createPremint_invalid_signature fixture_env foundry_api (JString "0xA")
           fixture_collection fixture_mint (Some rejecting_client)
           fixture_wallet None None []);
    [by left | exact rejecting_client_reports_invalid
    | apply surjective_pairing].
Defined.

Example createPremint_rejected :
  fst (createPremint fixture_env foundry_api (JString "0xA")
         fixture_collection fixture_mint (Some rejecting_client)
         fixture_wallet None None [])
  = Throw (Error "Invalid signature").
Proof. vm_compute. reflexivity. Qed.

(** The scenario of the specification on the foundry network: no
    explicit uid, the registry allocates 3, the signature verifies, the
    record is posted, and the collect URL names the deployed address and
    the uid. *)
Example createPremint_scenario :
  (url <$> fst (createPremint fixture_env foundry_api (JString "0xA")
                  fixture_collection fixture_mint (Some accepting_client)
                  fixture_wallet None None []))
    = Ok "https://testnet.zora.co/collect:zora:0xAbCdEf0123456789aBcDeF0123456789AbCdEf01/premint-3"
  ∧ registry_requests
      (snd (createPremint fixture_env foundry_api (JString "0xA")
              fixture_collection fixture_mint (Some accepting_client)
              fixture_wallet None None []))
    = [(GET, "https://api.zora.co/premint/signature/ZORA-TESTNET/0xabcdef0123456789abcdef0123456789abcdef01/next_uid");
       (POST, "https://api.zora.co/premint/signature")].
Proof. split; vm_compute; reflexivity. Qed.

(** ** The token configuration *)

Lemma open_edition_size :
  BigInt (JString OPEN_EDITION_MINT_SIZE) = Ok 18446744073709551615.
Proof. vm_compute. reflexivity. Qed.

Lemma DefaultMintArguments_table : DefaultMintArguments = Ok default_table.
Proof.
  unfold DefaultMintArguments. rewrite open_edition_size.
  cbn [mbind result_bind BigInt]. apply (f_equal Ok).
  change (60 * 60 * 24 * 7) with 604800. unfold default_table.
  apply map_eq. intros k. rewrite !lookup_insert.
  repeat (case_decide; [by subst |]). done.
Qed.

Lemma createPremint_tokenConfig_run
    (E : Env) (this : PreminterAPI) (account mint : jsval) :
  createPremint_tokenConfig E this account mint
  = Ok (own_props mint ∪
        <["royaltyRecipient" := account]>
          (<["fixedPriceMinter" := getFixedPriceMinterAddress E this]>
             default_table)).
Proof.
  unfold createPremint_tokenConfig. by rewrite DefaultMintArguments_table.
Qed.

(** C8. The token configuration of [createPremint] is built from the
    defaults, then the fixed-price minter of the instance and the
    requesting account as royalty recipient, then the caller's [mint],
    each layer overriding the ones before it.  A member the caller gives
    is taken as given, whatever it is; a member the caller leaves out
    keeps its context-derived or default value; without any caller member
    the result is the default table ([mintDuration = 604800],
    [royaltyBPS = 1000], [maxSupply = 18446744073709551615]) with the two
    context-derived members; and adding one member to [mint] changes that
    member of the result and no other. *)
Theorem createPremint_tokenConfig_merge
    (E : Env) (this : PreminterAPI) (account : jsval) :
  (∀ mint, ∃ tokenConfig,
     createPremint_tokenConfig E this account mint = Ok tokenConfig
     ∧ (∀ k v, own_props mint !! k = Some v -> tokenConfig !! k = Some v)
     ∧ (own_props mint !! "royaltyRecipient" = None ->
        tokenConfig !! "royaltyRecipient" = Some account)
     ∧ (own_props mint !! "fixedPriceMinter" = None ->
        tokenConfig !! "fixedPriceMinter"
          = Some (getFixedPriceMinterAddress E this))
     ∧ (∀ k, own_props mint !! k = None ->
          k ≠ "royaltyRecipient" -> k ≠ "fixedPriceMinter" ->
          tokenConfig !! k = default_table !! k))
  ∧ createPremint_tokenConfig E this account (JObject ∅)
    = Ok (<["royaltyRecipient" := account]>
            (<["fixedPriceMinter" := getFixedPriceMinterAddress E this]>
               default_table))
  ∧ default_table !! "mintDuration" = Some (JBigInt 604800)
  ∧ default_table !! "royaltyBPS" = Some (JNumber 1000)
  ∧ default_table !! "maxSupply" = Some (JBigInt 18446744073709551615)
  ∧ (∀ mint k v,
       createPremint_tokenConfig E this account (JObject (<[k := v]> mint))
       = insert k v <$> createPremint_tokenConfig E this account (JObject mint)).
Proof.
  split; [| split; [| split; [| split; [| split]]]].
  - intros mint. eexists. split; [apply createPremint_tokenConfig_run |].
    split; [| split; [| split]].
    + intros k v Hk. by apply lookup_union_Some_l.
    + intros Hk. rewrite lookup_union_r by done. by rewrite lookup_insert_eq.
    + intros Hk. rewrite lookup_union_r by done.
      rewrite lookup_insert_ne by done. by rewrite lookup_insert_eq.
    + intros k Hk Hr Hf. rewrite lookup_union_r by done.
      by rewrite !lookup_insert_ne.
  - rewrite createPremint_tokenConfig_run. cbn [own_props].
    by rewrite (left_id_L ∅ (∪)).
  - by vm_compute.
  - by vm_compute.
  - by vm_compute.
  - intros mint k v. rewrite !createPremint_tokenConfig_run.
    cbn [own_props fmap result_fmap]. by rewrite insert_union_l.
Qed.

(** On the fixtures, where only [tokenURI] is given: the caller's member,
    the two context-derived members and the defaults. *)
Lemma createPremint_tokenConfig_merge_witness :
  ∃ tokenConfig,
    createPremint_tokenConfig fixture_env foundry_api (JString "0xA") fixture_mint
      = Ok tokenConfig
    ∧ tokenConfig !! "tokenURI" = Some (JString "ipfs://t")
    ∧ tokenConfig !! "royaltyRecipient" = Some (JString "0xA")
    ∧ tokenConfig !! "mintDuration" = Some (JBigInt 604800)
    ∧ tokenConfig !! "royaltyBPS" = Some (JNumber 1000)
    ∧ tokenConfig !! "maxSupply" = Some (JBigInt 18446744073709551615).
Proof.
  destruct (createPremint_tokenConfig_merge fixture_env foundry_api (JString "0xA"))
    as (Hmerge & _ & Hduration & Hbps & Hsupply & _).
  destruct (Hmerge fixture_mint)
    as (tokenConfig & Hrun & Hcaller & Hrecipient & _ & Hdefault).
  exists tokenConfig. split; [exact Hrun |].
  split; [apply Hcaller; vm_compute; reflexivity |].
  split; [apply Hrecipient; vm_compute; reflexivity |].
  split; [rewrite Hdefault; [exact Hduration | vm_compute; reflexivity | done ..] |].
  split; [rewrite Hdefault; [exact Hbps | vm_compute; reflexivity | done ..] |].
  rewrite Hdefault; [exact Hsupply | vm_compute; reflexivity | done ..].
Defined.

(** The fixture of the specification: only [tokenURI] is given. *)
Example createPremint_tokenConfig_tokenURI_only :
  createPremint_tokenConfig fixture_env foundry_api (JString "0xA") fixture_mint
  = Ok (<["tokenURI" := JString "ipfs://t"]>
       (<["royaltyRecipient" := JString "0xA"]>
       (<["fixedPriceMinter" := JString "0x0000000000000000000000000000000000000999"]>
          default_table))).
Proof.
  rewrite createPremint_tokenConfig_run. unfold fixture_mint. cbn [own_props].
  rewrite <- insert_union_singleton_l. reflexivity.
Qed.

(** ** Contract addresses *)

(** C9, as amended. Both getters answer with the entry of the generated
    address table under chain id 999, whatever chain the instance was
    built for; that is the address of the instance's own chain exactly
    when the two entries of the table coincide, as they do for an
    instance built for chain 999. *)
Theorem getters_read_entry_999 (E : Env) (this : PreminterAPI) :
  getExecutorAddress E this
    = address_at (zoraCreator1155PremintExecutorImplAddress E) 999
  ∧ getFixedPriceMinterAddress E this
    = address_at (zoraCreatorFixedPriceSaleStrategyAddress E) 999
  ∧ (resolved_per_chain E this <->
       address_at (zoraCreator1155PremintExecutorImplAddress E) 999
         = address_at (zoraCreator1155PremintExecutorImplAddress E)
             (Chain_id (chain this))
       ∧ address_at (zoraCreatorFixedPriceSaleStrategyAddress E) 999
         = address_at (zoraCreatorFixedPriceSaleStrategyAddress E)
             (Chain_id (chain this)))
  ∧ (Chain_id (chain this) = 999 -> resolved_per_chain E this).
Proof.
  split; [done |]. split; [done |]. split; [done |].
  intros Hid. unfold resolved_per_chain, getExecutorAddress,
    getFixedPriceMinterAddress. by rewrite Hid.
Qed.

Lemma getters_read_entry_999_witness :
  resolved_per_chain fixture_env
    (fixture_api zoraTestnet
       {| chainId := 7777777; isTestnet := true; zoraPathChainName := "zora";
          zoraBackendChainName := ZORA_TESTNET |}).
Proof.
  apply (proj2 (proj2 (proj2 (getters_read_entry_999 fixture_env
    (fixture_api zoraTestnet
       {| chainId := 7777777; isTestnet := true; zoraPathChainName := "zora";
          zoraBackendChainName := ZORA_TESTNET |}))))).
  reflexivity.
Defined.

(** C9, as stated, fails: an instance built for [zora] (chain 7777777)
    over a table that lists a different address for that chain still
    answers with the address listed for chain 999. *)
Lemma getExecutorAddress_not_per_chain :
  PreminterAPI_constructor zora = Ok zora_api
  ∧ getExecutorAddress fixture_env zora_api
    = JString "0x0000000000000000000000000000000000000999"
  ∧ address_at (zoraCreator1155PremintExecutorImplAddress fixture_env)
      (Chain_id (chain zora_api))
    = JString "0x0000000000000000000000000000000007777777"
  ∧ ¬ resolved_per_chain fixture_env zora_api.
Proof.
  assert (getExecutorAddress fixture_env zora_api
          = JString "0x0000000000000000000000000000000000000999") as H999
    by (vm_compute; reflexivity).
  assert (address_at (zoraCreator1155PremintExecutorImplAddress fixture_env)
            (Chain_id (chain zora_api))
          = JString "0x0000000000000000000000000000000007777777") as Hown
    by (vm_compute; reflexivity).
  split; [vm_compute; reflexivity |].
  split; [exact H999 |]. split; [exact Hown |].
  intros [Hexec _]. rewrite H999, Hown in Hexec. discriminate.
Qed.

(** ** Registry paths and letter case *)

Lemma lower_ascii_upper (c : ascii) : is_upper c = true -> lower_ascii c ≠ c.
Proof. destruct c as [[] [] [] [] [] [] [] []]; by vm_compute. Qed.

Lemma toLowerCase_length (s : string) :
  String.length (toLowerCase s) = String.length s.
Proof. induction s as [| c s IH]; [done |]. cbn. by rewrite IH. Qed.

Lemma toLowerCase_changes (s : string) :
  has_upper s = true -> toLowerCase s ≠ s.
Proof.
  induction s as [| c s IH]; [done |]. cbn.
  intros [Hc | Hs]%orb_true_iff [= Hhead Htail].
  - by apply lower_ascii_upper in Hc.
  - by apply IH.
Qed.

Lemma append_same_length (a b x y : string) :
  String.length a = String.length b -> a +:+ x = b +:+ y -> a = b.
Proof.
  revert b. induction a as [| c a IH]; intros [| d b]; cbn; try done.
  intros [= Hlen] [= -> Happ]. f_equal. by apply IH.
Qed.

Lemma registry_path_address (base backend a b x y : string) :
  String.length a = String.length b ->
  base +:+ "signature/" +:+ backend +:+ "/" +:+ a +:+ x
  = base +:+ "signature/" +:+ backend +:+ "/" +:+ b +:+ y ->
  a = b.
Proof.
  intros Hlen Hpath.
  apply (inj (String.app base)) in Hpath.
  apply (inj (String.app "signature/")) in Hpath.
  apply (inj (String.app backend)) in Hpath.
  apply (inj (String.app "/")) in Hpath.
  by apply append_same_length in Hpath.
Qed.

(** C10. For an address with an upper-case letter, [getPremintData] asks
    the registry for the record path with the address exactly as given,
    while the uid allocation of [createPremint] asks for the [next_uid]
    path of the lower-cased address.  Lower-casing changes such an
    address, so neither operation asks for the path the other one would
    form for that collection: the record path under the lower-cased
    address is not the one [getPremintData] requests, and the [next_uid]
    path under the address as given is not the one [createPremint]
    requests. *)
Theorem record_path_keeps_case
    (E : Env) (this : PreminterAPI) (address : string) (uid : Z)
    (es : option ExecutionSettings) (t : trace) :
  has_upper address = true ->
  uid_not_provided es ->
  snd (getPremintData E this address uid t)
    = (t ++ [EFetch (get_request
         (ZORA_PREMINT_API_BASE +:+ "signature/"
            +:+ zoraBackendChainName (network this) +:+ "/" +:+ address
            +:+ "/" +:+ pretty uid))])%list
  ∧ snd (createPremint_uid E this es (JString address) t)
    = (t ++ [EFetch (get_request
         (ZORA_API_BASE +:+ "signature/"
            +:+ zoraBackendChainName (network this) +:+ "/"
            +:+ toLowerCase address +:+ "/next_uid"))])%list
  ∧ toLowerCase address ≠ address
  ∧ (∀ uid', premint_record_path this (toLowerCase address) uid'
             ≠ premint_record_path this address uid)
  ∧ next_uid_path this address ≠ next_uid_path this (toLowerCase address).
Proof.
  intros Hupper Hes. pose proof (toLowerCase_changes address Hupper) as Hne.
  split; [| split; [| split; [done | split]]].
  - unfold getPremintData. by rewrite get_run.
  - by rewrite createPremint_uid_fetch.
  - intros uid' Hpath. apply Hne.
    eapply registry_path_address; [apply toLowerCase_length | exact Hpath].
  - intros Hpath. apply Hne. symmetry.
    eapply registry_path_address; [symmetry; apply toLowerCase_length | exact Hpath].
Qed.

Lemma record_path_keeps_case_witness :
  has_upper fixture_address = true
  ∧ uid_not_provided None
  ∧ registry_requests (snd (getPremintData fixture_env foundry_api fixture_address 3 []))
    = [(GET, "https://api.zora.co/premint/signature/ZORA-TESTNET/0xAbCdEf0123456789aBcDeF0123456789AbCdEf01/3")]
  ∧ registry_requests
      (snd (createPremint_uid fixture_env foundry_api None
              (JString fixture_address) []))
    = [(GET, "https://api.zora.co/premint/signature/ZORA-TESTNET/0xabcdef0123456789abcdef0123456789abcdef01/next_uid")]
  ∧ toLowerCase fixture_address ≠ fixture_address.
Proof.
  assert (has_upper fixture_address = true) as Hupper by reflexivity.
  assert (uid_not_provided None) as Hes by (by left).
  pose proof (record_path_keeps_case fixture_env foundry_api fixture_address 3
                None [] Hupper Hes) as (Hrecord & Hnext & Hne & _).
  split; [exact Hupper |]. split; [exact Hes |].
  split; [rewrite Hrecord; vm_compute; reflexivity |].
  split; [rewrite Hnext; vm_compute; reflexivity | exact Hne].
Defined.

(** * Further properties *)

(** ** The wire format on arbitrary values *)

Lemma result_bind_inv {A B} (m : result A) (f : A -> result B) (b : B) :
  m ≫= f = Ok b -> ∃ a, m = Ok a ∧ f a = Ok b.
Proof. destruct m as [a | e]; [by exists a | done]. Qed.

Ltac result_step H :=
  let Hm := fresh "Hmember" in
  apply result_bind_inv in H as (? & Hm & H).

Lemma bigint_typed_inserts (tc : gmap string jsval) (a b c d e : Z) :
  bigint_typed
    (<["maxTokensPerAddress" := JBigInt e]>
    (<["mintDuration" := JBigInt d]>
    (<["mintStart" := JBigInt c]>
    (<["pricePerToken" := JBigInt b]>
    (<["maxSupply" := JBigInt a]> tc))))).
Proof.
  intros k Hk. unfold bigint_fields in Hk.
  repeat (apply elem_of_cons in Hk as [-> | Hk];
          [eexists; by simplify_map_eq |]).
  by apply elem_of_nil in Hk.
Qed.

Lemma not_bigint_field (k : string) :
  k ∉ bigint_fields ->
  k ≠ "maxSupply" ∧ k ≠ "pricePerToken" ∧ k ≠ "mintStart"
  ∧ k ≠ "mintDuration" ∧ k ≠ "maxTokensPerAddress".
Proof.
  unfold bigint_fields. rewrite !not_elem_of_cons. tauto.
Qed.

(** X3. Whatever value [convertPremint] is given, when it returns, the
    five [bigint] members of the result's [tokenConfig] are [bigint]s,
    each the [BigInt(...)] of the member it was given, and every other
    member of the token configuration and of the premint is the input's. *)
Theorem convertPremint_result (premint r : jsval) :
  convertPremint premint = Ok r ->
  ∃ tokenConfig ro rtc,
    get_prop premint "tokenConfig" = Ok tokenConfig
    ∧ r = JObject ro
    ∧ ro !! "tokenConfig" = Some (JObject rtc)
    ∧ bigint_typed rtc
    ∧ (∀ k, k ∈ bigint_fields ->
         ∃ v z, get_prop tokenConfig k = Ok v ∧ BigInt v = Ok z
                ∧ rtc !! k = Some (JBigInt z))
    ∧ (∀ k, k ∉ bigint_fields -> rtc !! k = own_props tokenConfig !! k)
    ∧ (∀ k, k ≠ "tokenConfig" -> ro !! k = own_props premint !! k).
Proof.
  unfold convertPremint. intros H.
  apply result_bind_inv in H as (tokenConfig & Htc & H).
  apply result_bind_inv in H as (a & Ha & H).
  apply result_bind_inv in H as (b & Hb & H).
  apply result_bind_inv in H as (c & Hc & H).
  apply result_bind_inv in H as (d & Hd & H).
  apply result_bind_inv in H as (e & He & H).
  apply result_bind_inv in Ha as (va & Hva & Ha).
  apply result_bind_inv in Hb as (vb & Hvb & Hb).
  apply result_bind_inv in Hc as (vc & Hvc & Hc).
  apply result_bind_inv in Hd as (vd & Hvd & Hd).
  apply result_bind_inv in He as (ve & Hve & He).
  injection H as <-.
  eexists tokenConfig, _, _. split; [done |]. split; [done |].
  split; [apply lookup_insert_eq |].
  split; [apply bigint_typed_inserts |].
  split; [| split].
  - intros k Hk. unfold bigint_fields in Hk.
    repeat (apply elem_of_cons in Hk as [-> | Hk];
            [eexists _, _; split; [eassumption |];
             split; [eassumption | by simplify_map_eq] |]).
    by apply elem_of_nil in Hk.
  - intros k (? & ? & ? & ? & ?)%not_bigint_field.
    by rewrite !lookup_insert_ne.
  - intros k Hk. by rewrite lookup_insert_ne.
Qed.

Lemma fixture_wire_decodes :
  convertPremint fixture_wire_premint = Ok fixture_premintConfig.
Proof.
  unfold fixture_wire_premint.
  rewrite (convertPremint_wire _ fixture_wire_tokenConfig
             18446744073709551615 0 1 604800 0);
    [| by rewrite lookup_insert_eq | vm_compute; reflexivity ..].
  apply (f_equal Ok). unfold fixture_premintConfig, premintConfig_of.
  apply (f_equal JObject). cbn [own_props].
  rewrite insert_insert_eq. apply insert_id.
  rewrite !lookup_insert_ne by done. rewrite lookup_insert_eq.
  apply (f_equal Some), (f_equal JObject). symmetry.
  unfold fixture_wire_tokenConfig.
  apply map_eq. intros j. rewrite !lookup_insert.
  repeat (case_decide; [subst; vm_compute; reflexivity |]). done.
Defined.

Lemma convertPremint_result_witness :
  convertPremint fixture_wire_premint = Ok fixture_premintConfig
  ∧ ∃ tokenConfig ro rtc,
      get_prop fixture_wire_premint "tokenConfig" = Ok tokenConfig
      ∧ fixture_premintConfig = JObject ro
      ∧ ro !! "tokenConfig" = Some (JObject rtc)
      ∧ bigint_typed rtc
      ∧ (∀ k, k ∈ bigint_fields ->
           ∃ v z, get_prop tokenConfig k = Ok v ∧ BigInt v = Ok z
                  ∧ rtc !! k = Some (JBigInt z))
      ∧ (∀ k, k ∉ bigint_fields -> rtc !! k = own_props tokenConfig !! k)
      ∧ (∀ k, k ≠ "tokenConfig" ->
           ro !! k = own_props fixture_wire_premint !! k).
Proof.
  assert (convertPremint fixture_wire_premint = Ok fixture_premintConfig) as Hrun
    by exact fixture_wire_decodes.
  split; [exact Hrun |].
  exact (convertPremint_result _ _ Hrun).
Defined.

(** A configuration whose five members are [bigint]s already passes
    through the decoder unchanged. *)
Lemma convertPremint_typed (po tc : gmap string jsval) :
  po !! "tokenConfig" = Some (JObject tc) ->
  bigint_typed tc ->
  convertPremint (JObject po) = Ok (JObject po).
Proof.
  intros Htc (a & b & c & d & e & Ha & Hb & Hc & Hd & He)%bigint_fields_typed.
  unfold convertPremint.
  rewrite get_prop_JObject, Htc. js_simpl.
  rewrite !get_prop_JObject, Ha, Hb, Hc, Hd, He. js_simpl.
  do 2 f_equal. apply insert_id. rewrite Htc. do 2 f_equal.
  map_cases k.
Qed.

Lemma convertPremint_returns_typed (premint r : jsval) :
  convertPremint premint = Ok r ->
  ∃ ro rtc,
    r = JObject ro ∧ ro !! "tokenConfig" = Some (JObject rtc) ∧ bigint_typed rtc.
Proof.
  unfold convertPremint. intros H.
  do 6 result_step H. injection H as <-.
  eexists _, _. split; [done |].
  split; [apply lookup_insert_eq | apply bigint_typed_inserts].
Qed.

(** X4. [convertPremint] is idempotent: decoding what it returned gives
    the same value again. *)
Theorem convertPremint_idempotent (premint r : jsval) :
  convertPremint premint = Ok r -> convertPremint r = Ok r.
Proof.
  intros (ro & rtc & -> & Hrtc & Htyped)%convertPremint_returns_typed.
  by apply (convertPremint_typed ro rtc).
Qed.

Lemma convertPremint_idempotent_witness :
  convertPremint fixture_wire_premint = Ok fixture_premintConfig
  ∧ convertPremint fixture_premintConfig = Ok fixture_premintConfig.
Proof.
  split; [exact fixture_wire_decodes |].
  exact (convertPremint_idempotent _ _ fixture_wire_decodes).
Defined.

(** Encoding a well-typed configuration and decoding the result gives the
    configuration back. *)
Lemma round_trip_typed (po tc : gmap string jsval) :
  po !! "tokenConfig" = Some (JObject tc) ->
  bigint_typed tc ->
  ∃ wire,
    encodePremintForAPI (JObject po) = Ok wire
    ∧ convertPremint wire = Ok (JObject po).
Proof.
  intros Htc (a & b & c & d & e & Ha & Hb & Hc & Hd & He)%bigint_fields_typed.
  eexists. split; [by apply (encodePremintForAPI_typed po tc a b c d e) |].
  erewrite (convertPremint_wire _ _ a b c d e);
    [| by rewrite lookup_insert_eq | by simplify_map_eq ..].
  do 2 f_equal.
  rewrite insert_insert_eq, insert_delete_eq.
  apply insert_id. rewrite Htc. do 2 f_equal.
  map_cases k.
Qed.

(** X7. Decoding normalises: what [convertPremint] returns encodes to a
    wire form that decodes to that same value, whatever text (canonical
    or not) the registry had sent. *)
Theorem convertPremint_normalises (premint r : jsval) :
  convertPremint premint = Ok r ->
  encodePremintForAPI r ≫= convertPremint = Ok r.
Proof.
  intros (ro & rtc & -> & Hrtc & Htyped)%convertPremint_returns_typed.
  destruct (round_trip_typed ro rtc Hrtc Htyped) as (wire & -> & Hback).
  exact Hback.
Qed.

Lemma convertPremint_normalises_witness :
  convertPremint fixture_wire_premint = Ok fixture_premintConfig
  ∧ encodePremintForAPI fixture_premintConfig ≫= convertPremint
    = Ok fixture_premintConfig.
Proof.
  split; [exact fixture_wire_decodes |].
  exact (convertPremint_normalises _ _ fixture_wire_decodes).
Defined.

(** X5. Whatever value [encodePremintForAPI] is given, when it returns,
    the five [bigint] members of the result's [tokenConfig] are strings,
    each the [toString()] of the member it was given, and every other
    member of the token configuration and of the configuration is the
    input's. *)
Theorem encodePremintForAPI_result (config w : jsval) :
  encodePremintForAPI config = Ok w ->
  ∃ tokenConfig wo wtc,
    get_prop config "tokenConfig" = Ok tokenConfig
    ∧ w = JObject wo
    ∧ wo !! "tokenConfig" = Some (JObject wtc)
    ∧ (∀ k, k ∈ bigint_fields ->
         ∃ v s, get_prop tokenConfig k = Ok v ∧ method_toString v = Ok s
                ∧ wtc !! k = Some (JString s))
    ∧ (∀ k, k ∉ bigint_fields -> wtc !! k = own_props tokenConfig !! k)
    ∧ (∀ k, k ≠ "tokenConfig" -> wo !! k = own_props config !! k).
Proof.
  unfold encodePremintForAPI. intros H.
  apply result_bind_inv in H as (tokenConfig & Htc & H). cbv zeta in H.
  apply result_bind_inv in H as (a & Ha & H).
  apply result_bind_inv in H as (b & Hb & H).
  apply result_bind_inv in H as (c & Hc & H).
  apply result_bind_inv in H as (d & Hd & H).
  apply result_bind_inv in H as (e & He & H).
  apply result_bind_inv in Ha as (va & Hva & Ha).
  apply result_bind_inv in Hb as (vb & Hvb & Hb).
  apply result_bind_inv in Hc as (vc & Hvc & Hc).
  apply result_bind_inv in Hd as (vd & Hvd & Hd).
  apply result_bind_inv in He as (ve & Hve & He).
  injection H as <-.
  eexists tokenConfig, _, _. split; [done |]. split; [done |].
  split; [apply lookup_insert_eq |].
  split; [| split].
  - intros k Hk. unfold bigint_fields in Hk.
    repeat (apply elem_of_cons in Hk as [-> | Hk];
            [eexists _, _; split; [eassumption |];
             split; [eassumption | by simplify_map_eq] |]).
    by apply elem_of_nil in Hk.
  - intros k (? & ? & ? & ? & ?)%not_bigint_field.
    by rewrite !lookup_insert_ne.
  - intros k Hk. rewrite lookup_insert_ne by done.
    by rewrite lookup_delete_ne.
Qed.

Lemma fixture_encodes :
  encodePremintForAPI fixture_premintConfig = Ok fixture_wire_premint.
Proof.
  unfold fixture_premintConfig, premintConfig_of.
  rewrite (encodePremintForAPI_typed _ fixture_tokenConfig
             18446744073709551615 0 1 604800 0);
    [| vm_compute; reflexivity ..].
  by rewrite insert_delete_eq.
Defined.

Lemma encodePremintForAPI_result_witness :
  encodePremintForAPI fixture_premintConfig = Ok fixture_wire_premint
  ∧ ∃ tokenConfig wo wtc,
      get_prop fixture_premintConfig "tokenConfig" = Ok tokenConfig
      ∧ fixture_wire_premint = JObject wo
      ∧ wo !! "tokenConfig" = Some (JObject wtc)
      ∧ (∀ k, k ∈ bigint_fields ->
           ∃ v s, get_prop tokenConfig k = Ok v ∧ method_toString v = Ok s
                  ∧ wtc !! k = Some (JString s))
      ∧ (∀ k, k ∉ bigint_fields -> wtc !! k = own_props tokenConfig !! k)
      ∧ (∀ k, k ≠ "tokenConfig" ->
           wo !! k = own_props fixture_premintConfig !! k).
Proof.
  split; [exact fixture_encodes |].
  exact (encodePremintForAPI_result _ _ fixture_encodes).
Defined.

Lemma encodePremintForAPI_members (config w : jsval) :
  encodePremintForAPI config = Ok w ->
  ∃ tokenConfig,
    get_prop config "tokenConfig" = Ok tokenConfig
    ∧ ∀ k, k ∈ bigint_fields ->
        ∃ s, get_prop tokenConfig k ≫= method_toString = Ok s.
Proof.
  unfold encodePremintForAPI. intros H.
  apply result_bind_inv in H as (tokenConfig & Htc & H). cbv zeta in H.
  apply result_bind_inv in H as (a & Ha & H).
  apply result_bind_inv in H as (b & Hb & H).
  apply result_bind_inv in H as (c & Hc & H).
  apply result_bind_inv in H as (d & Hd & H).
  apply result_bind_inv in H as (e & He & H).
  exists tokenConfig. split; [done |].
  intros k Hk. unfold bigint_fields in Hk.
  repeat (apply elem_of_cons in Hk as [-> | Hk]; [by eexists |]).
  by apply elem_of_nil in Hk.
Qed.

(** X6. [encodePremintForAPI] throws when one of the five [bigint]
    members of [tokenConfig] is missing, [undefined] or [null]: it has no
    [toString] to call. *)
Theorem encodePremintForAPI_missing_member
    (config tokenConfig v : jsval) (k : string) :
  get_prop config "tokenConfig" = Ok tokenConfig ->
  k ∈ bigint_fields ->
  get_prop tokenConfig k = Ok v ->
  v = JUndefined ∨ v = JNull ->
  ∃ e, encodePremintForAPI config = Throw e.
Proof.
  intros Htc Hk Hv Hnone.
  destruct (encodePremintForAPI config) as [w | e] eqn:Hrun; [| by eexists].
  apply encodePremintForAPI_members in Hrun as (tokenConfig' & Htc' & Hall).
  rewrite Htc in Htc'. injection Htc' as <-.
  destruct (Hall k Hk) as [s Hs]. rewrite Hv in Hs.
  by destruct Hnone as [-> | ->].
Qed.

Lemma encodePremintForAPI_missing_member_witness :
  get_prop (JObject {["tokenConfig" := JObject ∅]}) "tokenConfig"
    = Ok (JObject ∅)
  ∧ "maxSupply" ∈ bigint_fields
  ∧ get_prop (JObject ∅) "maxSupply" = Ok JUndefined
  ∧ (JUndefined = JUndefined ∨ JUndefined = JNull)
  ∧ ∃ e, encodePremintForAPI (JObject {["tokenConfig" := JObject ∅]}) = Throw e.
Proof.
  assert ("maxSupply" ∈ bigint_fields) as Hk by in_fields.
  split; [reflexivity |]. split; [exact Hk |].
  split; [reflexivity |]. split; [by left |].
  apply (encodePremintForAPI_missing_member
           (JObject {["tokenConfig" := JObject ∅]}) (JObject ∅) JUndefined
           "maxSupply"); [reflexivity | exact Hk | reflexivity | by left].
Defined.

(** ** Construction and the registry calls *)

(** X1. The constructor accepts exactly the chain ids 7777777, 999 and
    31337.  For these the instance keeps the chain it was given, the
    table entry of its id and the reward 777000000000000; for any other
    id it throws [Not configured for chain <id>]. *)
Theorem PreminterAPI_constructor_supported (c : Chain) :
  ((∃ api, PreminterAPI_constructor c = Ok api)
   <-> Chain_id c = 7777777 ∨ Chain_id c = 999 ∨ Chain_id c = 31337)
  ∧ (∀ api, PreminterAPI_constructor c = Ok api ->
       chain api = c
       ∧ networkConfigByChain !! Chain_id c = Some (network api)
       ∧ rewardPerToken api = 777000000000000)
  ∧ (∀ e, PreminterAPI_constructor c = Throw e ->
       e = Error ("Not configured for chain " +:+ pretty (Chain_id c))).
Proof.
  rewrite PreminterAPI_constructor_run.
  pose proof (networkConfigByChain_supported (Chain_id c)) as Hs.
  destruct (networkConfigByChain !! Chain_id c) as [n |] eqn:Hn.
  - split; [| split].
    + split; [intros _; apply Hs; by eexists | by eexists].
    + by intros api [= <-].
    + done.
  - split; [| split].
    + split; [by intros [api ?] |].
      intros Hid. apply Hs in Hid. by destruct Hid.
    + done.
    + by intros e [= <-].
Qed.

Lemma post_ok_inv (E : Env) (path : string) (data v : jsval) (t t' : trace) :
  post E path data t = (Ok v, t') ->
  ∃ body response,
    JSON_stringify E data = Ok body
    ∧ fetch E t (post_request path body) = Ok response
    ∧ status response = 200
    ∧ json response = Ok v
    ∧ t' = (t ++ [EFetch (post_request path body)])%list.
Proof.
  rewrite post_run.
  destruct (JSON_stringify E data) as [body | e]; [| done].
  destruct (fetch E t (post_request path body)) as [response | e] eqn:Hf;
    [| done].
  cbn [mbind result_bind].
  destruct (Z.eqb_spec (status response) 200) as [Hs | Hs]; [| done].
  cbn [negb]. intros [= Hj <-].
  by exists body, response.
Qed.

(** X2. [post] returns a value only for a response of status exactly 200
    whose body parses, after one POST with the two JSON headers and the
    serialised data as body.  Any other status, success codes such as
    201 included, makes it throw [Bad response: <status>] without reading
    the body, and when the data cannot be serialised nothing is sent. *)
Theorem post_outcome
    (E : Env) (path : string) (data : jsval) (t t' : trace) (r : result jsval) :
  post E path data t = (r, t') ->
  (∀ v, r = Ok v ->
     ∃ body response,
       JSON_stringify E data = Ok body
       ∧ fetch E t (post_request path body) = Ok response
       ∧ status response = 200
       ∧ json response = Ok v
       ∧ t' = (t ++ [EFetch {| req_url := path;
                               req_method := POST;
                               req_headers := [("content-type", "application/json");
                                               ("accept", "application/json")];
                               req_body := body |}])%list)
  ∧ (∀ body response,
       JSON_stringify E data = Ok body ->
       fetch E t (post_request path body) = Ok response ->
       status response ≠ 200 ->
       r = Throw (Error ("Bad response: " +:+ pretty (status response))))
  ∧ (∀ e, JSON_stringify E data = Throw e -> r = Throw e ∧ t' = t).
Proof.
  intros Hrun. split; [| split].
  - intros v ->. by apply post_ok_inv in Hrun.
  - intros body response Hb Hf Hs.
    rewrite post_run, Hb, Hf in Hrun. cbn [mbind result_bind] in Hrun.
    destruct (Z.eqb_spec (status response) 200); [done |].
    by injection Hrun as <- _.
  - intros e He. rewrite post_run, He in Hrun. by injection Hrun as <- <-.
Qed.

Lemma post_outcome_witness :
  fst (post failing_registry "https://api.zora.co/premint/signature" JNull [])
    = Throw (Error "Bad response: 500")
  ∧ (∀ body response,
       JSON_stringify failing_registry JNull = Ok body ->
       fetch failing_registry [] (post_request "https://api.zora.co/premint/signature" body)
         = Ok response ->
       status response ≠ 200 ->
       fst (post failing_registry "https://api.zora.co/premint/signature" JNull [])
         = Throw (Error ("Bad response: " +:+ pretty (status response)))).
Proof.
  split; [vm_compute; reflexivity |].
  apply (post_outcome failing_registry "https://api.zora.co/premint/signature"
           JNull [] _ _ (surjective_pairing _)).
Defined.

(** ** Registry paths *)

Lemma lower_ascii_idempotent (c : ascii) :
  lower_ascii (lower_ascii c) = lower_ascii c.
Proof. destruct c as [[] [] [] [] [] [] [] []]; by vm_compute. Qed.

Lemma toLowerCase_idempotent (s : string) :
  toLowerCase (toLowerCase s) = toLowerCase s.
Proof.
  induction s as [| c s IH]; [done |]. cbn.
  by rewrite lower_ascii_idempotent, IH.
Qed.

(** X19. The uid allocation does not see the letter case of the deployed
    address: two addresses with the same lower-case form make the same
    request and get the same outcome, and so do an address and its
    lower-case form. *)
Theorem createPremint_uid_ignores_case
    (E : Env) (this : PreminterAPI) (es : option ExecutionSettings)
    (a b : string) (t : trace) :
  toLowerCase a = toLowerCase b ->
  createPremint_uid E this es (JString a) t
  = createPremint_uid E this es (JString b) t
  ∧ createPremint_uid E this es (JString (toLowerCase a)) t
    = createPremint_uid E this es (JString a) t.
Proof.
  intros Hab. unfold createPremint_uid. cbn [method_toLowerCase].
  by rewrite Hab, toLowerCase_idempotent.
Qed.

Lemma createPremint_uid_ignores_case_witness :
  toLowerCase "0xAB" = toLowerCase "0xab"
  ∧ createPremint_uid fixture_env foundry_api None (JString "0xAB") []
    = createPremint_uid fixture_env foundry_api None (JString "0xab") []
  ∧ createPremint_uid fixture_env foundry_api None
      (JString (toLowerCase "0xAB")) []
    = createPremint_uid fixture_env foundry_api None (JString "0xAB") [].
Proof.
  split; [reflexivity |].
  apply (createPremint_uid_ignores_case fixture_env foundry_api None
           "0xAB" "0xab" []).
  reflexivity.
Defined.

Lemma append_cons (c : ascii) (x y : string) :
  String c x +:+ y = String c (x +:+ y).
Proof. reflexivity. Qed.

Lemma append_empty (y : string) : "" +:+ y = y.
Proof. reflexivity. Qed.

Lemma no_slash_append_slash (x y : string) :
  no_slash (x +:+ String "/" y) = false.
Proof.
  induction x as [| c x IH]; [done |]. rewrite append_cons. cbn [no_slash].
  rewrite IH. apply andb_false_r.
Qed.

Lemma split_at_last_slash (a a' s s' : string) :
  no_slash s = true -> no_slash s' = true ->
  a +:+ "/" +:+ s = a' +:+ "/" +:+ s' -> a = a' ∧ s = s'.
Proof.
  intros Hs Hs'. revert a'.
  change ("/" +:+ s) with (String "/" s).
  change ("/" +:+ s') with (String "/" s').
  induction a as [| c a IH]; intros [| c' a'];
    rewrite ?append_cons, ?append_empty.
  - by intros [= ->].
  - intros [= <- ->]. by rewrite no_slash_append_slash in Hs.
  - intros [= -> <-]. by rewrite no_slash_append_slash in Hs'.
  - intros [= -> Hrest]. apply IH in Hrest as [-> ->]. done.
Qed.

Lemma is_decimal_not_slash (c : ascii) : is_decimal c = true -> is_slash c = false.
Proof. destruct c as [[] [] [] [] [] [] [] []]; by vm_compute. Qed.

Lemma all_decimal_no_slash (s : string) : all_decimal s = true -> no_slash s = true.
Proof.
  induction s as [| c s IH]; [done |]. cbn.
  intros [Hc Hs]%andb_true_iff.
  by rewrite is_decimal_not_slash, IH.
Qed.

Lemma pretty_Z_no_slash (z : Z) : no_slash (pretty z) = true.
Proof.
  destruct z as [| p | p].
  - reflexivity.
  - apply all_decimal_no_slash, digits_decimal.
  - change (pretty (Z.neg p)) with (String "-" (digits p)). cbn.
    apply all_decimal_no_slash, digits_decimal.
Qed.

(** X16. On one network, [getPremintData] asks for the same path only
    for the same address and the same uid: records of different
    collections or uids are never confused, whatever characters the
    address holds. *)
Theorem premint_record_path_injective
    (this : PreminterAPI) (a a' : string) (u u' : Z) :
  premint_record_path this a u = premint_record_path this a' u' ->
  a = a' ∧ u = u'.
Proof.
  unfold premint_record_path. intros Hpath.
  apply (inj (String.app ZORA_PREMINT_API_BASE)) in Hpath.
  apply (inj (String.app "signature/")) in Hpath.
  apply (inj (String.app (zoraBackendChainName (network this)))) in Hpath.
  apply (inj (String.app "/")) in Hpath.
  apply split_at_last_slash in Hpath as [-> Hu];
    [| apply pretty_Z_no_slash ..].
  split; [done |]. by apply (inj pretty).
Qed.

Lemma premint_record_path_injective_witness :
  premint_record_path foundry_api "0xa/1" 2 = premint_record_path foundry_api "0xa/1" 2
  ∧ "0xa/1" = "0xa/1" ∧ 2 = 2.
Proof.
  split; [reflexivity |].
  apply (premint_record_path_injective foundry_api "0xa/1" "0xa/1" 2 2).
  reflexivity.
Defined.

(** ** The flow of [createPremint] *)

Lemma createPremint_check_trace
    (E : Env) (this : PreminterAPI) (client : PublicClient) (check : bool)
    (collection premintConfig signature : jsval) (t t' : trace) r :
  createPremint_check E this client check collection premintConfig signature t
    = (r, t') ->
  (check = false ∧ r = Ok tt ∧ t' = t)
  ∨ (check = true
     ∧ t' = (t ++ [EReadContract
                     (isValidSignature_request E this collection premintConfig
                        signature)])%list).
Proof.
  unfold createPremint_check. destruct check.
  - intros Hrun. right. split; [done |].
    apply IO_bind_inv in Hrun as [(e & Hm & ->) | (outcome & t1 & Hm & Hrun)];
      rewrite perform_run in Hm; injection Hm as Hread <-; [done |].
    io_lift Hrun; [done |].
    destruct (negb (truthy (element x 0)));
      cbv [lift mret IO_ret] in Hrun; by simplify_eq.
  - intros [= <- <-]. by left.
Qed.

Lemma post_trace (E : Env) (path : string) (data : jsval) (t t' : trace) r :
  post E path data t = (r, t') ->
  (t' = t ∧ ∃ e, r = Throw e)
  ∨ ∃ body, t' = (t ++ [EFetch (post_request path body)])%list.
Proof.
  rewrite post_run. destruct (JSON_stringify E data) as [body | e].
  - intros [= <- <-]. right. by exists body.
  - intros [= <- <-]. left. split; [done | by eexists].
Qed.

(** Closes a goal about the events of a run that has ended: the events
    are read off the final history and the statements about them
    evaluated. *)
Ltac ended_flow :=
  eexists; split;
  [ rewrite <- ?app_assoc; first [reflexivity | symmetry; apply app_nil_r] |];
  split; [reflexivity |]; split; [reflexivity |]; split; [reflexivity |];
  try (by intros ? [=]).

(** X8. The external calls of one [createPremint] run come in a fixed
    order, each at most once: the address read, then the [next_uid] GET,
    the wallet signature, the verification read and the registry POST.
    The run starts with the address read, never simulates or writes a
    contract call, and a run that returns has signed and has ended with
    the POST. *)
Theorem createPremint_call_order
    (E : Env) (this : PreminterAPI) (account collection mint : jsval)
    (publicClient : option PublicClient) (walletClient : WalletClient)
    (es : option ExecutionSettings) (checkSignature : option bool)
    (t t' : trace) (r : result CreatePremintResult) :
  createPremint E this account collection mint publicClient walletClient
    es checkSignature t = (r, t') ->
  ∃ evs : trace,
    t' = (t ++ evs)%list
    ∧ head (phase <$> evs) = Some 0%nat
    ∧ increasing (phase <$> evs) = true
    ∧ forallb (fun e => phase e <=? 4)%nat evs = true
    ∧ (∀ ret, r = Ok ret ->
         2%nat ∈ phase <$> evs ∧ last (phase <$> evs) = Some 4%nat).
Proof.
  intros Hrun. unfold createPremint in Hrun. cbv zeta in Hrun.
  apply IO_bind_inv in Hrun as [(e & Hm & ->) | (address & t1 & Hm & Hrun)];
    rewrite perform_run in Hm; injection Hm as Hread <-.
  { ended_flow. }
  io_lift Hrun; try ended_flow.
  apply IO_bind_inv in Hrun as [(e & Hm & ->) | (u & t2 & Hm & Hrun)];
    apply createPremint_uid_trace in Hm as [-> | [path ->]];
    try ended_flow.
  all: io_lift Hrun; try ended_flow.
  all: apply IO_bind_inv in Hrun as [(e & Hm & ->) | (signature & t3 & Hm & Hrun)];
    rewrite perform_run in Hm; injection Hm as Hsign <-;
    [ended_flow |].
  all: apply IO_bind_inv in Hrun as [(e & Hm & ->) | ([] & t4 & Hm & Hrun)];
    apply createPremint_check_trace in Hm as [(_ & _ & ->) | (_ & ->)];
    try ended_flow.
  all: io_lift Hrun; try ended_flow.
  all: apply IO_bind_inv in Hrun as [(e & Hm & ->) | (posted & t5 & Hm & Hrun)];
    apply post_trace in Hm as [(-> & e' & He) | (body & ->)];
    try (by simplify_eq); try ended_flow.
  all: io_lift Hrun; try ended_flow.
  all: io_lift Hrun; try ended_flow.
  all: injection Hrun as <- <-.
  all: ended_flow; intros ret _; cbn; split; [| reflexivity].
  all: repeat first [apply list_elem_of_here | apply list_elem_of_further].
Qed.

Lemma createPremint_call_order_witness :
  (phase <$> snd (createPremint fixture_env foundry_api (JString "0xA")
                    fixture_collection fixture_mint (Some accepting_client)
                    fixture_wallet None None []))
    = [0; 1; 2; 3; 4]%nat
  ∧ ∃ evs : trace,
      snd (createPremint fixture_env foundry_api (JString "0xA")
             fixture_collection fixture_mint (Some accepting_client)
             fixture_wallet None None [])
        = ([] ++ evs)%list
      ∧ head (phase <$> evs) = Some 0%nat
      ∧ increasing (phase <$> evs) = true
      ∧ forallb (fun e => phase e <=? 4)%nat evs = true
      ∧ (∀ ret,
           fst (createPremint fixture_env foundry_api (JString "0xA")
                  fixture_collection fixture_mint (Some accepting_client)
                  fixture_wallet None None [])
             = Ok ret ->
           2%nat ∈ phase <$> evs ∧ last (phase <$> evs) = Some 4%nat).
Proof.
  split; [vm_compute; reflexivity |].
  apply (createPremint_call_order fixture_env foundry_api (JString "0xA")
           fixture_collection fixture_mint (Some accepting_client)
           fixture_wallet None None []).
  apply surjective_pairing.
Defined.

(** One pure step of a run that returned: the step produced a value and
    left the history alone. *)
Ltac io_pure Hrun x Hx :=
  let Hm := fresh "Hm" in
  apply IO_bind_inv in Hrun as [(? & _ & [=]) | (x & ? & Hm & Hrun)];
  rewrite lift_run in Hm;
  apply pair_equal_spec in Hm as [Hx <-].

(** What a returning run of [createPremint] went through, stage by
    stage. *)
Lemma createPremint_success_inv
    (E : Env) (this : PreminterAPI) (account collection mint : jsval)
    (publicClient : option PublicClient) (walletClient : WalletClient)
    (es : option ExecutionSettings) (checkSignature : option bool)
    (t t' : trace) (ret : CreatePremintResult) :
  createPremint E this account collection mint publicClient walletClient
    es checkSignature t = (Ok ret, t') ->
  let client := default (createPublicClient E (chain this)) publicClient in
  let t0 := (t ++ [EReadContract (getContractAddress_request E this collection)])%list in
  ∃ tokenConfig t1 typedData signature t2 encoded body response,
    let cfg := premintConfig_of tokenConfig (result_uid ret) (deleted_flag es) in
    let signing := JObject (own_props typedData ∪ {["account" := account]}) in
    readContract client t (getContractAddress_request E this collection)
      = Ok (newContractAddress ret)
    ∧ createPremint_tokenConfig E this account mint = Ok tokenConfig
    ∧ createPremint_uid E this es (newContractAddress ret) t0
      = (Ok (result_uid ret), t1)
    ∧ preminterTypedDataDefinition E (newContractAddress ret) cfg
        (Chain_id (chain this)) = Ok typedData
    ∧ signTypedData walletClient t1 signing = Ok signature
    ∧ createPremint_check E this client (default true checkSignature)
        collection cfg signature (t1 ++ [ESignTypedData signing])%list
      = (Ok tt, t2)
    ∧ encodePremintForAPI cfg = Ok encoded
    ∧ JSON_stringify E (api_data this collection encoded signature) = Ok body
    ∧ fetch E t2 (post_request (ZORA_API_BASE +:+ "signature") body)
      = Ok response
    ∧ status response = 200
    ∧ json response = Ok (premint ret)
    ∧ t' = (t2 ++ [EFetch (post_request (ZORA_API_BASE +:+ "signature") body)])%list
    ∧ ∃ address_text uid_text,
        ToString (newContractAddress ret) = Ok address_text
        ∧ ToString (result_uid ret) = Ok uid_text
        ∧ url ret = collect_url this address_text uid_text.
Proof.
  intros Hrun client t0. unfold createPremint in Hrun. cbv zeta in Hrun.
  change (match publicClient with
          | Some client => client
          | None => createPublicClient E (chain this)
          end) with client in Hrun.
  apply IO_bind_inv in Hrun as [(e & _ & [=]) | (address & ? & Hm & Hrun)].
  rewrite perform_run in Hm. injection Hm as Hread <-.
  io_pure Hrun tokenConfig Htoken.
  apply IO_bind_inv in Hrun as [(e & _ & [=]) | (u & t1 & Huid & Hrun)].
  io_pure Hrun typedData Htyped.
  apply IO_bind_inv in Hrun as [(e & _ & [=]) | (signature & ? & Hm & Hrun)].
  rewrite perform_run in Hm. injection Hm as Hsign <-.
  apply IO_bind_inv in Hrun as [(e & _ & [=]) | ([] & t2 & Hcheck & Hrun)].
  io_pure Hrun encoded Hencoded.
  apply IO_bind_inv in Hrun as [(e & _ & [=]) | (posted & t3 & Hpost & Hrun)].
  apply post_ok_inv in Hpost as (body & response & Hbody & Hfetch & Hstatus & Hjson & ->).
  io_pure Hrun address_text Haddress. io_pure Hrun uid_text Huid_text.
  injection Hrun as <- <-.
  cbn [result_uid newContractAddress premint url].
  exists tokenConfig, t1, typedData, signature, t2, encoded, body, response.
  cbv zeta. repeat (split; [done |]). by eexists _, _.
Qed.

Lemma createPremint_uid_events
    (E : Env) (this : PreminterAPI) (es : option ExecutionSettings)
    (newContractAddress : jsval) (t t' : trace) r :
  createPremint_uid E this es newContractAddress t = (r, t') ->
  ∃ gets : trace,
    t' = (t ++ gets)%list
    ∧ (gets = [] ∨ ∃ path, gets = [EFetch (get_request path)])
    ∧ (∀ u, explicit_uid es = JNumber u -> u ≠ 0 -> gets = []).
Proof.
  intros Hrun. destruct (explicit_uid es) as [| | | u | | | |] eqn:Hes.
  4: destruct (decide (u = 0)) as [-> | Hu].
  5: { rewrite (createPremint_uid_explicit E this es _ u) in Hrun by done.
       injection Hrun as <- <-. exists []. by rewrite app_nil_r; auto. }
  all: apply createPremint_uid_trace in Hrun as [-> | [path ->]];
    [exists []; rewrite app_nil_r | eexists [_]];
    (split; [done |]); (split; [by eauto |]); by intros ? [=].
Qed.

Lemma createPremint_check_events
    (E : Env) (this : PreminterAPI) (client : PublicClient) (check : bool)
    (collection premintConfig signature : jsval) (t t' : trace) r :
  createPremint_check E this client check collection premintConfig signature t
    = (r, t') ->
  ∃ checks : trace,
    t' = (t ++ checks)%list
    ∧ (checks = []
       ∨ (check = true
          ∧ ∃ rq, rd_functionName rq = "isValidSignature"
                  ∧ checks = [EReadContract rq])).
Proof.
  intros [(_ & _ & ->) | (Hon & ->)]%createPremint_check_trace.
  - exists []. rewrite app_nil_r. by auto.
  - eexists [_]. split; [done |]. right. split; [done |].
    by exists (isValidSignature_request E this collection premintConfig signature).
Qed.

Lemma post_events (E : Env) (path : string) (data : jsval) (t t' : trace) r :
  post E path data t = (r, t') ->
  ∃ posts : trace,
    t' = (t ++ posts)%list
    ∧ (posts = [] ∨ ∃ body, posts = [EFetch (post_request path body)]).
Proof.
  intros [(-> & _) | (body & ->)]%post_trace.
  - exists []. rewrite app_nil_r. by auto.
  - eexists [_]. by eauto.
Qed.

Ltac stages := rewrite <- ?app_assoc, ?app_nil_r; split; [reflexivity |]; by eauto 10.

(** Every run of [createPremint], whatever its outcome, in stages: the
    address read, then what the uid allocation, the signing, the
    verification and the submission added to the history. *)
Lemma createPremint_run_inv
    (E : Env) (this : PreminterAPI) (account collection mint : jsval)
    (publicClient : option PublicClient) (walletClient : WalletClient)
    (es : option ExecutionSettings) (checkSignature : option bool)
    (t t' : trace) (r : result CreatePremintResult) :
  createPremint E this account collection mint publicClient walletClient
    es checkSignature t = (r, t') ->
  ∃ gets signs checks posts : trace,
    t' = (t ++ [EReadContract (getContractAddress_request E this collection)]
            ++ gets ++ signs ++ checks ++ posts)%list
    ∧ (gets = [] ∨ ∃ path, gets = [EFetch (get_request path)])
    ∧ (∀ u, explicit_uid es = JNumber u -> u ≠ 0 -> gets = [])
    ∧ (signs = [] ∨ ∃ signing, signs = [ESignTypedData signing])
    ∧ (checks = []
       ∨ (default true checkSignature = true
          ∧ ∃ rq, rd_functionName rq = "isValidSignature"
                  ∧ checks = [EReadContract rq]))
    ∧ (posts = []
       ∨ ∃ tokenConfig uid encoded body,
           createPremint_tokenConfig E this account mint = Ok tokenConfig
           ∧ encodePremintForAPI
               (premintConfig_of tokenConfig uid (deleted_flag es))
             = Ok encoded
           ∧ posts = [EFetch (post_request (ZORA_API_BASE +:+ "signature") body)]).
Proof.
  intros Hrun. unfold createPremint in Hrun. cbv zeta in Hrun.
  apply IO_bind_inv in Hrun as [(e & Hm & ->) | (address & t1 & Hm & Hrun)];
    rewrite perform_run in Hm; apply pair_equal_spec in Hm as [Hread <-].
  { exists [], [], [], []. stages. }
  apply IO_bind_inv in Hrun as [(e & Hm & ->) | (tokenConfig & ? & Hm & Hrun)];
    rewrite lift_run in Hm; apply pair_equal_spec in Hm as [Htoken <-].
  { exists [], [], [], []. stages. }
  apply IO_bind_inv in Hrun as [(e & Hm & ->) | (u & t2 & Hm & Hrun)];
    apply createPremint_uid_events in Hm as (gets & -> & Hgets & Hexplicit).
  { exists gets, [], [], []. stages. }
  apply IO_bind_inv in Hrun as [(e & Hm & ->) | (typedData & ? & Hm & Hrun)];
    rewrite lift_run in Hm; apply pair_equal_spec in Hm as [Htyped <-].
  { exists gets, [], [], []. stages. }
  apply IO_bind_inv in Hrun as [(e & Hm & ->) | (signature & ? & Hm & Hrun)];
    rewrite perform_run in Hm; apply pair_equal_spec in Hm as [Hsign <-].
  { eexists gets, [_], [], []. stages. }
  apply IO_bind_inv in Hrun as [(e & Hm & ->) | ([] & t4 & Hm & Hrun)];
    apply createPremint_check_events in Hm as (checks & -> & Hcheck).
  { eexists gets, [_], checks, []. stages. }
  apply IO_bind_inv in Hrun as [(e & Hm & ->) | (encoded & ? & Hm & Hrun)];
    rewrite lift_run in Hm; apply pair_equal_spec in Hm as [Hencoded <-].
  { eexists gets, [_], checks, []. stages. }
  apply IO_bind_inv in Hrun as [(e & Hm & ->) | (posted & t5 & Hm & Hrun)];
    apply post_events in Hm as (posts & -> & Hposts).
  2: assert (t' = ((((((t ++ [EReadContract (getContractAddress_request E this collection)])
                         ++ gets)
                        ++ [ESignTypedData
                              (JObject (own_props typedData ∪ {["account" := account]}))])
                       ++ checks) ++ posts))%list) as ->.
  2: { repeat (apply IO_bind_inv in Hrun as [(? & Hm & ->) | (? & ? & Hm & Hrun)];
               rewrite lift_run in Hm; apply pair_equal_spec in Hm as [_ <-];
               [done |]).
       by injection Hrun as _ <-. }
  all: eexists gets, [_], checks, posts.
  all: rewrite <- ?app_assoc; split; [reflexivity |].
  all: split; [done |]; split; [done |]; split; [by eauto |]; split; [done |].
  all: destruct Hposts as [-> | [body ->]]; [by left |].
  all: right; by exists tokenConfig, u, encoded, body.
Qed.

Lemma stage_events_quiet (e : event) (gets signs : trace) :
  (gets = [] ∨ ∃ path, gets = [EFetch (get_request path)]) ->
  (signs = [] ∨ ∃ signing, signs = [ESignTypedData signing]) ->
  e ∈ (gets ++ signs)%list ->
  ¬ is_verification e ∧ ¬ is_registry_write e.
Proof.
  intros Hgets Hsigns [Hin | Hin]%elem_of_app.
  - destruct Hgets as [-> | [path ->]]; [by apply elem_of_nil in Hin |].
    apply list_elem_of_singleton in Hin as ->.
    split; apply fetch_get_quiet.
  - destruct Hsigns as [-> | [signing ->]]; [by apply elem_of_nil in Hin |].
    apply list_elem_of_singleton in Hin as ->.
    split; [by intros (? & [=] & _) | by intros (? & [=] & _)].
Qed.

(** X9. With [checkSignature] set to [false], [createPremint] never
    makes the verification call, whatever else happens in the run. *)
Theorem createPremint_unchecked
    (E : Env) (this : PreminterAPI) (account collection mint : jsval)
    (publicClient : option PublicClient) (walletClient : WalletClient)
    (es : option ExecutionSettings) (t t' : trace)
    (r : result CreatePremintResult) :
  createPremint E this account collection mint publicClient walletClient
    es (Some false) t = (r, t') ->
  ∃ evs : trace,
    t' = (t ++ evs)%list ∧ ∀ e, e ∈ evs -> ¬ is_verification e.
Proof.
  intros (gets & signs & checks & posts & -> & Hgets & _ & Hsigns & Hchecks
          & Hposts)%createPremint_run_inv.
  destruct Hchecks as [-> | [[=] _]].
  eexists. split; [reflexivity |]. intros e Hin.
  apply elem_of_cons in Hin as [-> | Hin];
    [apply getContractAddress_not_verification |].
  rewrite app_nil_l, app_assoc in Hin.
  apply elem_of_app in Hin as [Hin | Hin];
    [by apply (stage_events_quiet e gets signs) |].
  destruct Hposts as [-> | (? & ? & ? & body & _ & _ & ->)];
    [by apply elem_of_nil in Hin |].
  apply list_elem_of_singleton in Hin as ->. by intros (? & [=] & _).
Qed.

Lemma createPremint_unchecked_witness :
  (phase <$> snd (createPremint fixture_env foundry_api (JString "0xA")
                    fixture_collection fixture_mint (Some rejecting_client)
                    fixture_wallet None (Some false) []))
    = [0; 1; 2; 4]%nat
  ∧ ∃ evs : trace,
      snd (createPremint fixture_env foundry_api (JString "0xA")
             fixture_collection fixture_mint (Some rejecting_client)
             fixture_wallet None (Some false) [])
        = ([] ++ evs)%list
      ∧ ∀ e, e ∈ evs -> ¬ is_verification e.
Proof.
  split; [vm_compute; reflexivity |].
  apply (createPremint_unchecked fixture_env foundry_api (JString "0xA")
           fixture_collection fixture_mint (Some rejecting_client)
           fixture_wallet None [] _
           (fst (createPremint fixture_env foundry_api (JString "0xA")
                   fixture_collection fixture_mint (Some rejecting_client)
                   fixture_wallet None (Some false) []))).
  apply surjective_pairing.
Defined.

(** X10. With a non-zero explicit uid, a whole run of [createPremint]
    sends no GET to the registry, and a run that returns returns that
    uid. *)
Theorem createPremint_explicit_uid
    (E : Env) (this : PreminterAPI) (account collection mint : jsval)
    (publicClient : option PublicClient) (walletClient : WalletClient)
    (es : option ExecutionSettings) (checkSignature : option bool) (u : Z)
    (t t' : trace) (r : result CreatePremintResult) :
  explicit_uid es = JNumber u -> u ≠ 0 ->
  createPremint E this account collection mint publicClient walletClient
    es checkSignature t = (r, t') ->
  (∃ evs : trace,
     t' = (t ++ evs)%list ∧ ∀ e, e ∈ evs -> ¬ is_registry_read e)
  ∧ (∀ ret, r = Ok ret -> result_uid ret = JNumber u).
Proof.
  intros Hes Hu Hrun. split.
  - apply createPremint_run_inv in Hrun
      as (gets & signs & checks & posts & -> & _ & Hgets & Hsigns & Hchecks
          & Hposts).
    rewrite (Hgets u Hes Hu).
    eexists. split; [reflexivity |]. intros e Hin (rq & -> & Hget).
    apply elem_of_cons in Hin as [[=] | Hin].
    rewrite app_nil_l in Hin.
    apply elem_of_app in Hin as [Hin | Hin].
    { destruct Hsigns as [-> | [signing ->]]; [by apply elem_of_nil in Hin |].
      by apply list_elem_of_singleton in Hin. }
    apply elem_of_app in Hin as [Hin | Hin].
    { destruct Hchecks as [-> | (_ & ? & _ & ->)]; [by apply elem_of_nil in Hin |].
      by apply list_elem_of_singleton in Hin. }
    destruct Hposts as [-> | (? & ? & ? & body & _ & _ & ->)];
      [by apply elem_of_nil in Hin |].
    apply list_elem_of_singleton in Hin. by simplify_eq.
  - intros ret ->.
    apply createPremint_success_inv in Hrun
      as (? & ? & ? & ? & ? & ? & ? & ? & _ & _ & Huid & _).
    rewrite (createPremint_uid_explicit E this es _ u) in Huid by done.
    by injection Huid as <- _.
Qed.

Lemma createPremint_explicit_uid_witness :
  explicit_uid (Some {| deleted := None; uid := Some 7 |}) = JNumber 7
  ∧ 7 ≠ 0
  ∧ (result_uid <$>
       fst (createPremint fixture_env foundry_api (JString "0xA")
              fixture_collection fixture_mint (Some accepting_client)
              fixture_wallet (Some {| deleted := None; uid := Some 7 |})
              None []))
    = Ok (JNumber 7)
  ∧ (∃ evs : trace,
       snd (createPremint fixture_env foundry_api (JString "0xA")
              fixture_collection fixture_mint (Some accepting_client)
              fixture_wallet (Some {| deleted := None; uid := Some 7 |})
              None [])
         = ([] ++ evs)%list
       ∧ ∀ e, e ∈ evs -> ¬ is_registry_read e)
  ∧ (∀ ret,
       fst (createPremint fixture_env foundry_api (JString "0xA")
              fixture_collection fixture_mint (Some accepting_client)
              fixture_wallet (Some {| deleted := None; uid := Some 7 |})
              None [])
         = Ok ret ->
       result_uid ret = JNumber 7).
Proof.
  split; [reflexivity |]. split; [lia |].
  split; [vm_compute; reflexivity |].
  apply (createPremint_explicit_uid fixture_env foundry_api (JString "0xA")
           fixture_collection fixture_mint (Some accepting_client)
           fixture_wallet (Some {| deleted := None; uid := Some 7 |}) None 7 []);
    [reflexivity | lia | apply surjective_pairing].
Defined.

Lemma createPremint_uid_truthy
    (E : Env) (this : PreminterAPI) (es : option ExecutionSettings)
    (newContractAddress u : jsval) (t t' : trace) :
  createPremint_uid E this es newContractAddress t = (Ok u, t') ->
  truthy u = true.
Proof.
  unfold createPremint_uid. intros Hrun.
  apply IO_bind_inv in Hrun as [(? & _ & [=]) | (u0 & t1 & _ & Hrun)].
  destruct (truthy u0) eqn:Hu0; cbv [negb lift mret IO_ret] in Hrun;
    by simplify_eq.
Qed.

(** X11. What [createPremint] returns: the address the chain interface
    gave, a uid that is truthy (never [0] or [undefined]), and the collect
    URL [https://[testnet.]zora.co/collect:<path name>:<address>/premint-<uid>]
    of the network of the instance, with the [testnet.] prefix exactly
    on a test network. *)
Theorem createPremint_result
    (E : Env) (this : PreminterAPI) (account collection mint : jsval)
    (publicClient : option PublicClient) (walletClient : WalletClient)
    (es : option ExecutionSettings) (checkSignature : option bool)
    (t t' : trace) (ret : CreatePremintResult) :
  createPremint E this account collection mint publicClient walletClient
    es checkSignature t = (Ok ret, t') ->
  readContract (default (createPublicClient E (chain this)) publicClient) t
    (getContractAddress_request E this collection)
    = Ok (newContractAddress ret)
  ∧ truthy (result_uid ret) = true
  ∧ ∃ address_text uid_text,
      ToString (newContractAddress ret) = Ok address_text
      ∧ ToString (result_uid ret) = Ok uid_text
      ∧ url ret
        = "https://" +:+ (if isTestnet (network this) then "testnet." else "")
            +:+ "zora.co/collect:" +:+ zoraPathChainName (network this)
            +:+ ":" +:+ address_text +:+ "/premint-" +:+ uid_text.
Proof.
  intros Hrun.
  apply createPremint_success_inv in Hrun
    as (? & ? & ? & ? & ? & ? & ? & ? & Hread & _ & Huid & _ & _ & _ & _ & _
        & _ & _ & _ & _ & Hurl).
  split; [done |]. split; [by eapply createPremint_uid_truthy |]. done.
Qed.

Lemma fixture_run_returns :
  ∃ ret t',
    createPremint fixture_env foundry_api (JString "0xA")
      fixture_collection fixture_mint (Some accepting_client)
      fixture_wallet None None [] = (Ok ret, t').
Proof.
  assert (is_Some (match fst (createPremint fixture_env foundry_api (JString "0xA")
                     fixture_collection fixture_mint (Some accepting_client)
                     fixture_wallet None None []) with
                   | Ok _ => Some tt
                   | Throw _ => None
                   end)) as Hok by (vm_compute; by eexists).
  destruct (createPremint fixture_env foundry_api (JString "0xA")
              fixture_collection fixture_mint (Some accepting_client)
              fixture_wallet None None []) as [[ret | e] t'].
  - by exists ret, t'.
  - exfalso. cbn in Hok. by destruct Hok.
Defined.

Lemma createPremint_result_witness :
  ∃ ret t',
    createPremint fixture_env foundry_api (JString "0xA")
      fixture_collection fixture_mint (Some accepting_client)
      fixture_wallet None None [] = (Ok ret, t')
    ∧ truthy (result_uid ret) = true
    ∧ ∃ address_text uid_text,
        ToString (newContractAddress ret) = Ok address_text
        ∧ ToString (result_uid ret) = Ok uid_text
        ∧ url ret
          = "https://" +:+ (if isTestnet (network foundry_api) then "testnet." else "")
              +:+ "zora.co/collect:" +:+ zoraPathChainName (network foundry_api)
              +:+ ":" +:+ address_text +:+ "/premint-" +:+ uid_text.
Proof.
  destruct fixture_run_returns as (ret & t' & Hrun).
  exists ret, t'. split; [exact Hrun |].
  exact (proj2 (createPremint_result _ _ _ _ _ _ _ _ _ _ _ _ Hrun)).
Defined.

(** X12. A returning [createPremint] has posted what it had signed: one
    premint configuration, made of the merged token configuration, the
    returned uid, version 1 and the deleted flag, is the message of the
    typed data the wallet signed and, encoded, the [premint] member of the
    posted record, next to the collection, the backend chain name and the
    signature the wallet gave. *)
Theorem createPremint_posts_what_it_signed
    (E : Env) (this : PreminterAPI) (account collection mint : jsval)
    (publicClient : option PublicClient) (walletClient : WalletClient)
    (es : option ExecutionSettings) (checkSignature : option bool)
    (t t' : trace) (ret : CreatePremintResult) :
  createPremint E this account collection mint publicClient walletClient
    es checkSignature t = (Ok ret, t') ->
  ∃ tokenConfig typedData signature encoded body (before between : trace),
    createPremint_tokenConfig E this account mint = Ok tokenConfig
    ∧ preminterTypedDataDefinition E (newContractAddress ret)
        (premintConfig_of tokenConfig (result_uid ret) (deleted_flag es))
        (Chain_id (chain this)) = Ok typedData
    ∧ signTypedData walletClient before
        (JObject (own_props typedData ∪ {["account" := account]}))
      = Ok signature
    ∧ encodePremintForAPI
        (premintConfig_of tokenConfig (result_uid ret) (deleted_flag es))
      = Ok encoded
    ∧ JSON_stringify E
        (JObject (<["signature" := signature]>
                 (<["chain_name" := JString (zoraBackendChainName (network this))]>
                 (<["premint" := encoded]>
                 (<["collection" := collection]> ∅)))))
      = Ok body
    ∧ t' = (before
            ++ [ESignTypedData
                  (JObject (own_props typedData ∪ {["account" := account]}))]
            ++ between
            ++ [EFetch (post_request "https://api.zora.co/premint/signature" body)])%list.
Proof.
  intros Hrun.
  apply createPremint_success_inv in Hrun
    as (tokenConfig & t1 & typedData & signature & t2 & encoded & body
        & response & _ & Htoken & _ & Htyped & Hsign & Hcheck & Hencoded
        & Hbody & _ & _ & _ & -> & _).
  apply createPremint_check_events in Hcheck as (checks & -> & _).
  exists tokenConfig, typedData, signature, encoded, body, t1, checks.
  repeat (split; [done |]). by rewrite <- !app_assoc.
Qed.

Lemma createPremint_posts_what_it_signed_witness :
  ∃ ret t',
    createPremint fixture_env foundry_api (JString "0xA")
      fixture_collection fixture_mint (Some accepting_client)
      fixture_wallet None None [] = (Ok ret, t')
    ∧ ∃ tokenConfig typedData signature encoded body (before between : trace),
        createPremint_tokenConfig fixture_env foundry_api (JString "0xA")
          fixture_mint = Ok tokenConfig
        ∧ preminterTypedDataDefinition fixture_env (newContractAddress ret)
            (premintConfig_of tokenConfig (result_uid ret) (deleted_flag None))
            (Chain_id (chain foundry_api)) = Ok typedData
        ∧ signTypedData fixture_wallet before
            (JObject (own_props typedData ∪ {["account" := JString "0xA"]}))
          = Ok signature
        ∧ encodePremintForAPI
            (premintConfig_of tokenConfig (result_uid ret) (deleted_flag None))
          = Ok encoded
        ∧ JSON_stringify fixture_env
            (JObject (<["signature" := signature]>
                     (<["chain_name" := JString (zoraBackendChainName (network foundry_api))]>
                     (<["premint" := encoded]>
                     (<["collection" := fixture_collection]> ∅)))))
          = Ok body
        ∧ t' = (before
                ++ [ESignTypedData
                      (JObject (own_props typedData ∪ {["account" := JString "0xA"]}))]
                ++ between
                ++ [EFetch (post_request "https://api.zora.co/premint/signature" body)])%list.
Proof.
  destruct fixture_run_returns as (ret & t' & Hrun).
  exists ret, t'. split; [exact Hrun |].
  exact (createPremint_posts_what_it_signed _ _ _ _ _ _ _ _ _ _ _ _ Hrun).
Defined.

(** ** Overrides of the [bigint] members *)

Lemma default_table_typed (k : string) :
  k ∈ bigint_fields -> ∃ z, default_table !! k = Some (JBigInt z).
Proof.
  intros Hk. unfold bigint_fields in Hk.
  repeat (apply elem_of_cons in Hk as [-> | Hk];
          [eexists; vm_compute; reflexivity |]).
  by apply elem_of_nil in Hk.
Qed.

Lemma bigint_field_not_context (k : string) :
  k ∈ bigint_fields -> k ≠ "royaltyRecipient" ∧ k ≠ "fixedPriceMinter".
Proof.
  intros Hk. unfold bigint_fields in Hk.
  repeat (apply elem_of_cons in Hk as [-> | Hk]; [done |]).
  by apply elem_of_nil in Hk.
Qed.

(** X17. When the caller's [mint] leaves the five [bigint] members alone
    or sets them to [bigint]s, the merged token configuration holds a
    [bigint] in each of them, and the premint configuration built from it,
    for any uid and deleted flag, encodes without error to a wire form
    that decodes to itself. *)
Theorem createPremint_tokenConfig_encodes
    (E : Env) (this : PreminterAPI) (account mint : jsval) :
  (∀ k v, k ∈ bigint_fields -> own_props mint !! k = Some v ->
     ∃ z, v = JBigInt z) ->
  ∃ tokenConfig,
    createPremint_tokenConfig E this account mint = Ok tokenConfig
    ∧ bigint_typed tokenConfig
    ∧ ∀ uid deleted, ∃ wire,
        encodePremintForAPI (premintConfig_of tokenConfig uid deleted) = Ok wire
        ∧ convertPremint wire = Ok (premintConfig_of tokenConfig uid deleted).
Proof.
  intros Hmint. eexists. split; [apply createPremint_tokenConfig_run |].
  assert (bigint_typed
            (own_props mint ∪
             <["royaltyRecipient" := account]>
               (<["fixedPriceMinter" := getFixedPriceMinterAddress E this]>
                  default_table))) as Htyped.
  { intros k Hk. destruct (own_props mint !! k) as [v |] eqn:Hv.
    - destruct (Hmint k v Hk Hv) as [z ->]. exists z.
      by apply lookup_union_Some_l.
    - destruct (default_table_typed k Hk) as [z Hz].
      destruct (bigint_field_not_context k Hk) as [? ?].
      exists z. rewrite lookup_union_r by done.
      by rewrite !lookup_insert_ne. }
  split; [exact Htyped |].
  intros uid deleted. unfold premintConfig_of.
  eapply round_trip_typed; [| exact Htyped]. by simplify_map_eq.
Qed.

Lemma fixture_mint_keeps_bigints :
  ∀ k v, k ∈ bigint_fields -> own_props fixture_mint !! k = Some v ->
    ∃ z, v = JBigInt z.
Proof.
  intros k v Hk Hv. unfold bigint_fields in Hk. exfalso.
  repeat (apply elem_of_cons in Hk as [-> | Hk];
          [vm_compute in Hv; discriminate |]).
  by apply elem_of_nil in Hk.
Defined.

Lemma createPremint_tokenConfig_encodes_witness :
  (∀ k v, k ∈ bigint_fields -> own_props fixture_mint !! k = Some v ->
     ∃ z, v = JBigInt z)
  ∧ ∃ tokenConfig,
      createPremint_tokenConfig fixture_env foundry_api (JString "0xA")
        fixture_mint = Ok tokenConfig
      ∧ bigint_typed tokenConfig
      ∧ ∀ uid deleted, ∃ wire,
          encodePremintForAPI (premintConfig_of tokenConfig uid deleted) = Ok wire
          ∧ convertPremint wire = Ok (premintConfig_of tokenConfig uid deleted).
Proof.
  split; [exact fixture_mint_keeps_bigints |].
  exact (createPremint_tokenConfig_encodes fixture_env foundry_api
           (JString "0xA") fixture_mint fixture_mint_keeps_bigints).
Defined.

(** X18. An explicit [undefined] (or [null]) in one of the five [bigint]
    members of [mint] is not replaced by the default: it reaches the
    encoder, so [createPremint] fails, and it fails before any POST to
    the registry. *)
Theorem createPremint_undefined_override
    (E : Env) (this : PreminterAPI) (account collection mint : jsval)
    (publicClient : option PublicClient) (walletClient : WalletClient)
    (es : option ExecutionSettings) (checkSignature : option bool)
    (k : string) (v : jsval) (t t' : trace) (r : result CreatePremintResult) :
  k ∈ bigint_fields ->
  own_props mint !! k = Some v ->
  v = JUndefined ∨ v = JNull ->
  createPremint E this account collection mint publicClient walletClient
    es checkSignature t = (r, t') ->
  (∃ e, r = Throw e)
  ∧ ∃ evs : trace,
      t' = (t ++ evs)%list ∧ ∀ e, e ∈ evs -> ¬ is_registry_write e.
Proof.
  intros Hk Hv Hnone Hrun.
  assert (∀ tokenConfig uid deleted encoded,
            createPremint_tokenConfig E this account mint = Ok tokenConfig ->
            encodePremintForAPI (premintConfig_of tokenConfig uid deleted)
              = Ok encoded -> False) as Hfails.
  { intros tokenConfig uid deleted encoded Htoken Hencoded.
    rewrite createPremint_tokenConfig_run in Htoken. injection Htoken as <-.
    apply encodePremintForAPI_members in Hencoded as (tokenConfig & Htc & Hall).
    unfold premintConfig_of in Htc. rewrite get_prop_JObject in Htc.
    rewrite !lookup_insert_ne, lookup_insert_eq in Htc by done.
    injection Htc as <-.
    destruct (Hall k Hk) as [s Hs].
    rewrite get_prop_JObject, (lookup_union_Some_l _ _ _ _ Hv) in Hs.
    by destruct Hnone as [-> | ->]. }
  split.
  - destruct r as [ret | e]; [| by eexists]. exfalso.
    apply createPremint_success_inv in Hrun
      as (tokenConfig & ? & ? & ? & ? & encoded & ? & ? & _ & Htoken & _ & _
          & _ & _ & Hencoded & _).
    by eapply Hfails.
  - apply createPremint_run_inv in Hrun
      as (gets & signs & checks & posts & -> & Hgets & _ & Hsigns & Hchecks
          & Hposts).
    destruct Hposts as [-> | (tokenConfig & uid & encoded & body & Htoken
                              & Hencoded & _)];
      [| exfalso; by eapply Hfails].
    eexists. split; [reflexivity |]. intros e Hin Hwrite.
    apply elem_of_cons in Hin as [-> | Hin];
      [by destruct Hwrite as (? & [=] & _) |].
    rewrite app_nil_r, app_assoc in Hin.
    apply elem_of_app in Hin as [Hin | Hin];
      [by apply (stage_events_quiet e gets signs) in Hin as [_ ?] |].
    destruct Hchecks as [-> | (_ & ? & _ & ->)]; [by apply elem_of_nil in Hin |].
    apply list_elem_of_singleton in Hin as ->.
    by destruct Hwrite as (? & [=] & _).
Qed.

Lemma createPremint_undefined_override_witness :
  "maxSupply" ∈ bigint_fields
  ∧ own_props undefined_supply_mint !! "maxSupply" = Some JUndefined
  ∧ (JUndefined = JUndefined ∨ JUndefined = JNull)
  ∧ registry_requests
      (snd (createPremint fixture_env foundry_api (JString "0xA")
              fixture_collection undefined_supply_mint (Some accepting_client)
              fixture_wallet None None []))
    = [(GET, "https://api.zora.co/premint/signature/ZORA-TESTNET/0xabcdef0123456789abcdef0123456789abcdef01/next_uid")]
  ∧ (∃ e,
       fst (createPremint fixture_env foundry_api (JString "0xA")
              fixture_collection undefined_supply_mint (Some accepting_client)
              fixture_wallet None None [])
         = Throw e)
  ∧ ∃ evs : trace,
      snd (createPremint fixture_env foundry_api (JString "0xA")
             fixture_collection undefined_supply_mint (Some accepting_client)
             fixture_wallet None None [])
        = ([] ++ evs)%list
      ∧ ∀ e, e ∈ evs -> ¬ is_registry_write e.
Proof.
  assert ("maxSupply" ∈ bigint_fields) as Hk by in_fields.
  assert (own_props undefined_supply_mint !! "maxSupply" = Some JUndefined)
    as Hv by (vm_compute; reflexivity).
  split; [exact Hk |]. split; [exact Hv |]. split; [by left |].
  split; [vm_compute; reflexivity |].
  apply (createPremint_undefined_override fixture_env foundry_api (JString "0xA")
           fixture_collection undefined_supply_mint (Some accepting_client)
           fixture_wallet None None "maxSupply" JUndefined []);
    [exact Hk | exact Hv | by left | apply surjective_pairing].
Defined.

(** ** Consuming a registry record *)

Lemma get_prop_throws (v : jsval) (k : string) (e : exn) :
  get_prop v k = Throw e -> e = TypeError ∧ ∀ k', get_prop v k' = Throw TypeError.
Proof. destruct v; cbn; intros [=]; by subst. Qed.

Lemma record_decode_failure (data : jsval) (e : exn) :
  get_prop data "premint" ≫= convertPremint = Throw e ->
  (get_prop data "collection" = Throw e)
  ∨ (∃ collection, get_prop data "collection" = Ok collection).
Proof.
  intros Hdecode.
  destruct (get_prop data "collection") as [c | e'] eqn:Hc; [by eauto |].
  left. apply get_prop_throws in Hc as [-> Hall].
  rewrite (Hall "premint") in Hdecode. cbn in Hdecode. congruence.
Qed.

(** X13. A registry record whose [premint] member does not decode (it is
    missing, or one of the five members is not integer text) is refused
    by both of its consumers before any chain call: [isValidSignature]
    and [executePremintWithWallet] throw the decoding error and leave the
    history as it was. *)
Theorem malformed_record_makes_no_call
    (E : Env) (this : PreminterAPI) (data account : jsval)
    (client : PublicClient) (walletClient : WalletClient)
    (quantityToMint : Z) (mintComment : string)
    (publicClient : option PublicClient) (t : trace) (e : exn) :
  get_prop data "premint" ≫= convertPremint = Throw e ->
  isValidSignature E this data client t = (Throw e, t)
  ∧ executePremintWithWallet E this data account walletClient
      quantityToMint mintComment publicClient t = (Throw e, t).
Proof.
  intros Hdecode. unfold isValidSignature, executePremintWithWallet.
  rewrite !IO_bind_run, !lift_run.
  destruct (record_decode_failure data e Hdecode) as [-> | [collection ->]];
    [done |].
  rewrite !IO_bind_run, !lift_run. by rewrite Hdecode.
Qed.

Lemma malformed_record_makes_no_call_witness :
  get_prop (JObject {["premint" := JObject {["tokenConfig" :=
              JObject {["maxSupply" := JString "1e3"]}]}]}) "premint"
    ≫= convertPremint = Throw SyntaxError
  ∧ isValidSignature fixture_env foundry_api
      (JObject {["premint" := JObject {["tokenConfig" :=
              JObject {["maxSupply" := JString "1e3"]}]}]})
      accepting_client [] = (Throw SyntaxError, [])
  ∧ executePremintWithWallet fixture_env foundry_api
      (JObject {["premint" := JObject {["tokenConfig" :=
              JObject {["maxSupply" := JString "1e3"]}]}]})
      JUndefined fixture_wallet 1 "gm" None [] = (Throw SyntaxError, []).
Proof.
  assert (get_prop (JObject {["premint" := JObject {["tokenConfig" :=
              JObject {["maxSupply" := JString "1e3"]}]}]}) "premint"
            ≫= convertPremint = Throw SyntaxError) as Hdecode
    by (vm_compute; reflexivity).
  split; [exact Hdecode |].
  exact (malformed_record_makes_no_call fixture_env foundry_api _ JUndefined
           accepting_client fixture_wallet 1 "gm" None [] SyntaxError Hdecode).
Defined.

(** X14. With a simulation capability, [executePremintWithWallet] writes
    only after a simulation that succeeded, and it writes the request
    that simulation returned; when the simulation throws, the operation
    throws the same error and nothing is written. *)
Theorem executePremintWithWallet_simulates_first
    (E : Env) (this : PreminterAPI) (data account : jsval)
    (walletClient : WalletClient) (quantityToMint : Z) (mintComment : string)
    (client : PublicClient) (t t' : trace) (r : result jsval) :
  executePremintWithWallet E this data account walletClient
    quantityToMint mintComment (Some client) t = (r, t') ->
  ∃ evs : trace,
    t' = (t ++ evs)%list
    ∧ (∀ c, EWriteContract c ∈ evs ->
         ∃ simulated,
           simulateContract client t simulated = Ok c
           ∧ evs = [ESimulateContract simulated; EWriteContract c])
    ∧ (∀ simulated e,
         ESimulateContract simulated ∈ evs ->
         simulateContract client t simulated = Throw e ->
         r = Throw e ∧ evs = [ESimulateContract simulated]).
Proof.
  intros Hrun. unfold executePremintWithWallet in Hrun.
  repeat (apply IO_bind_inv in Hrun as [(? & Hm & ->) | (? & ? & Hm & Hrun)];
          rewrite lift_run in Hm; apply pair_equal_spec in Hm as [_ <-];
          [exists []; rewrite app_nil_r; split; [done |];
           split; intros; exfalso; by eapply elem_of_nil |]).
  apply IO_bind_inv in Hrun as [(e & Hm & ->) | (request & ? & Hm & Hrun)];
    rewrite perform_run in Hm; apply pair_equal_spec in Hm as [Hsim <-].
  - eexists. split; [reflexivity |]. split.
    + intros c Hin. by apply list_elem_of_singleton in Hin.
    + intros simulated e' Hin He'.
      apply list_elem_of_singleton in Hin. injection Hin as ->.
      rewrite Hsim in He'. by injection He' as <-.
  - rewrite perform_run in Hrun. apply pair_equal_spec in Hrun as [_ <-].
    eexists. split; [by rewrite <- app_assoc |]. split.
    + intros c Hin. apply elem_of_cons in Hin as [[=] | Hin].
      apply list_elem_of_singleton in Hin. injection Hin as ->.
      by eexists.
    + intros simulated e' Hin He'.
      apply elem_of_cons in Hin as [Hin | Hin];
        [| by apply list_elem_of_singleton in Hin].
      injection Hin as ->. rewrite Hsim in He'. discriminate.
Qed.

Lemma executePremintWithWallet_simulates_first_witness :
  (tx_value <$>
     omap (fun e => match e with ESimulateContract c => Some c | _ => None end)
       (snd (executePremintWithWallet fixture_env foundry_api fixture_record
               JUndefined fixture_wallet 3 "gm" (Some accepting_client) [])))
    = [2331000000000000]
  ∧ ∃ evs : trace,
      snd (executePremintWithWallet fixture_env foundry_api fixture_record
             JUndefined fixture_wallet 3 "gm" (Some accepting_client) [])
        = ([] ++ evs)%list
      ∧ (∀ c, EWriteContract c ∈ evs ->
           ∃ simulated,
             simulateContract accepting_client [] simulated = Ok c
             ∧ evs = [ESimulateContract simulated; EWriteContract c])
      ∧ (∀ simulated e,
           ESimulateContract simulated ∈ evs ->
           simulateContract accepting_client [] simulated = Throw e ->
           fst (executePremintWithWallet fixture_env foundry_api fixture_record
                  JUndefined fixture_wallet 3 "gm" (Some accepting_client) [])
             = Throw e
           ∧ evs = [ESimulateContract simulated]).
Proof.
  split; [vm_compute; reflexivity |].
  apply (executePremintWithWallet_simulates_first fixture_env foundry_api
           fixture_record JUndefined fixture_wallet 3 "gm" accepting_client []).
  apply surjective_pairing.
Defined.

(** X15. A record made of a collection, the encoding of a well-typed
    premint configuration and a signature is verified and executed
    against that very configuration: [isValidSignature] sends the same
    read request as the pre-submission check of [createPremint] for the
    configuration, and [executePremintWithWallet], without a simulation
    capability, writes one [premint] call to the executor address with
    the collection, the configuration, the signature, the quantity and
    the comment, from the given account or else the wallet's, for the
    chain of the instance. *)
Theorem record_names_signed_configuration
    (E : Env) (this : PreminterAPI) (po tc d : gmap string jsval)
    (wire collection signature account : jsval) (client : PublicClient)
    (walletClient : WalletClient) (quantityToMint : Z) (mintComment : string)
    (t : trace) :
  po !! "tokenConfig" = Some (JObject tc) ->
  bigint_typed tc ->
  encodePremintForAPI (JObject po) = Ok wire ->
  d !! "collection" = Some collection ->
  d !! "premint" = Some wire ->
  d !! "signature" = Some signature ->
  snd (isValidSignature E this (JObject d) client t)
    = (t ++ [EReadContract
               (isValidSignature_request E this collection (JObject po)
                  signature)])%list
  ∧ snd (executePremintWithWallet E this (JObject d) account walletClient
           quantityToMint mintComment None t)
    = (t ++ [EWriteContract
               {| tx_abi := zoraCreator1155PremintExecutorImplABI E;
                  tx_account := if truthy account then account
                                else wallet_account walletClient;
                  tx_value := quantityToMint * rewardPerToken this;
                  tx_chain := Some (chain this);
                  tx_functionName := "premint";
                  tx_address := getExecutorAddress E this;
                  tx_args := [collection; JObject po; signature;
                              JBigInt quantityToMint; JString mintComment] |}])%list.
Proof.
  intros Htc Htyped Hwire Hc Hp Hs.
  destruct (round_trip_typed po tc Htc Htyped) as (wire' & Hwire' & Hback).
  rewrite Hwire in Hwire'. injection Hwire' as <-.
  unfold isValidSignature, executePremintWithWallet.
  rewrite !get_prop_JObject, Hc, Hp, Hs.
  cbn [default from_option id mbind result_bind]. rewrite Hback.
  cbv [mbind IO_bind lift perform mret IO_ret].
  split.
  - destruct (readContract client t _) as [outcome | e]; [| done].
    by destruct (iterate outcome).
  - cbn [snd]. unfold premint_call. by destruct (truthy account).
Qed.

Lemma record_names_signed_configuration_witness :
  own_props fixture_premintConfig !! "tokenConfig"
    = Some (JObject fixture_tokenConfig)
  ∧ bigint_typed fixture_tokenConfig
  ∧ encodePremintForAPI fixture_premintConfig = Ok fixture_wire_premint
  ∧ own_props fixture_record !! "collection" = Some fixture_collection
  ∧ own_props fixture_record !! "premint" = Some fixture_wire_premint
  ∧ own_props fixture_record !! "signature" = Some (JString "0x5167")
  ∧ snd (isValidSignature fixture_env foundry_api fixture_record
           accepting_client [])
    = ([] ++ [EReadContract
                (isValidSignature_request fixture_env foundry_api
                   fixture_collection fixture_premintConfig
                   (JString "0x5167"))])%list
  ∧ snd (executePremintWithWallet fixture_env foundry_api fixture_record
           JUndefined fixture_wallet 3 "gm" None [])
    = ([] ++ [EWriteContract
                {| tx_abi := zoraCreator1155PremintExecutorImplABI fixture_env;
                   tx_account := if truthy JUndefined then JUndefined
                                 else wallet_account fixture_wallet;
                   tx_value := 3 * rewardPerToken foundry_api;
                   tx_chain := Some (chain foundry_api);
                   tx_functionName := "premint";
                   tx_address := getExecutorAddress fixture_env foundry_api;
                   tx_args := [fixture_collection; fixture_premintConfig;
                               JString "0x5167"; JBigInt 3; JString "gm"] |}])%list.
Proof.
  assert (own_props fixture_premintConfig !! "tokenConfig"
          = Some (JObject fixture_tokenConfig)) as Htc
    by (vm_compute; reflexivity).
  assert (own_props fixture_record !! "collection" = Some fixture_collection)
    as Hc by apply lookup_insert_eq.
  assert (own_props fixture_record !! "premint" = Some fixture_wire_premint)
    as Hp by (unfold fixture_record; cbn [own_props];
              rewrite lookup_insert_ne by done; apply lookup_insert_eq).
  assert (own_props fixture_record !! "signature" = Some (JString "0x5167"))
    as Hs by (unfold fixture_record; cbn [own_props];
              rewrite !lookup_insert_ne by done; apply lookup_insert_eq).
  split; [exact Htc |]. split; [exact fixture_tokenConfig_typed |].
  split; [exact fixture_encodes |].
  split; [exact Hc |]. split; [exact Hp |]. split; [exact Hs |].
  exact (record_names_signed_configuration fixture_env foundry_api
           _ fixture_tokenConfig _ fixture_wire_premint fixture_collection
           (JString "0x5167") JUndefined accepting_client fixture_wallet 3 "gm"
           [] Htc fixture_tokenConfig_typed fixture_encodes Hc Hp Hs).
Defined.
